(** * GXNESTICLE: the 6502 core of [app.cpp]

    A shallow embedding of the CPU register file ([CPU6502]), the flat 64KB
    memory ([Memory]) and the per-instruction entry point
    ([NesticleClone::emulate_cycle]) of [src/app.cpp], together with the
    properties of them that the specification talks about.

    Conventions.
    - [uint8_t] and [uint16_t] values are integers of [Z]; every place where
      the C++ code converts back to the narrow type is written out as
      [wrap8] or [wrap16].
    - [std::vector<uint8_t>] is a [list Z]; indexing it outside its bounds is
      undefined behaviour in C++ and is [None] here, so every function that
      touches memory lives in the [option] monad.
    - [std::cerr] is the string of everything written to it so far.
    - The SDL handles ([window], [renderer]) and the [PPU] placeholder hold
      no emulation state and are left out. *)

From stdpp Require Import base option list strings.
From Stdlib Require Import ZArith Lia Ascii.

Local Open Scope Z_scope.

(** ** Fixed-width integers *)

Definition wrap8 (z : Z) : Z := z mod 2 ^ 8.

Definition wrap16 (z : Z) : Z := z mod 2 ^ 16.

Definition is_u8 (z : Z) : Prop := 0 <= z <= 0xFF.

Definition is_u16 (z : Z) : Prop := 0 <= z <= 0xFFFF.

(** ** Memory

    [class Memory { std::vector<uint8_t> ram; ... }]. *)

Record Memory : Type := mkMemory { ram : list Z }.

(** [Memory() : ram(0x10000, 0) {}] *)
Definition Memory_new : Memory := mkMemory (replicate (Z.to_nat 0x10000) 0).

(** [ram[address]] of a vector: defined only below [ram.size()]. The
    parameter type [uint16_t] keeps [address] non-negative. *)
Definition in_bounds (m : Memory) (address : Z) : bool :=
  bool_decide (0 <= address < Z.of_nat (length (ram m))).

(** [uint8_t read(uint16_t address) const { return ram[address]; }] *)
Definition read (m : Memory) (address : Z) : option Z :=
  if in_bounds m address then ram m !! Z.to_nat address else None.

(** [void write(uint16_t address, uint8_t value) { ram[address] = value; }] *)
Definition write (m : Memory) (address value : Z) : option Memory :=
  if in_bounds m address
  then Some (mkMemory (<[Z.to_nat address := value]> (ram m)))
  else None.

(** The shape every [Memory] object has from its constructor on: 0x10000
    cells, each holding a byte. *)
Definition mem_ok (m : Memory) : Prop :=
  length (ram m) = Z.to_nat 0x10000 /\ Forall is_u8 (ram m).

(** ** CPU registers

    [struct CPU6502 { uint8_t A, X, Y; uint8_t SP; uint16_t PC;
                      uint8_t status; ... }]. *)

Record CPU6502 : Type := mkCPU {
  A : Z;
  X : Z;
  Y : Z;
  SP : Z;
  PC : Z;
  status : Z
}.

Definition set_A (v : Z) (c : CPU6502) : CPU6502 :=
  mkCPU v (X c) (Y c) (SP c) (PC c) (status c).

Definition set_X (v : Z) (c : CPU6502) : CPU6502 :=
  mkCPU (A c) v (Y c) (SP c) (PC c) (status c).

Definition set_PC (v : Z) (c : CPU6502) : CPU6502 :=
  mkCPU (A c) (X c) (Y c) (SP c) v (status c).

Definition set_status (v : Z) (c : CPU6502) : CPU6502 :=
  mkCPU (A c) (X c) (Y c) (SP c) (PC c) v.

(** [void reset() { A = X = Y = 0; SP = 0xFD; PC = 0x8000; status = 0x24; }] *)
Definition reset (c : CPU6502) : CPU6502 :=
  mkCPU 0 0 0 0xFD 0x8000 0x24.

(** [update_zero_and_negative_flags(uint8_t value)]: two [if]s in sequence,
    each a compound assignment on the [uint8_t] [status] (the operands are
    promoted to [int], the result is converted back). *)
Definition update_zero_and_negative_flags (value : Z) (c : CPU6502) : CPU6502 :=
  let c1 :=
    if value =? 0
    then set_status (wrap8 (Z.lor (status c) 0x02)) c
    else set_status (wrap8 (Z.land (status c) (Z.lnot 0x02))) c in
  if negb (Z.land value 0x80 =? 0)
  then set_status (wrap8 (Z.lor (status c1) 0x80)) c1
  else set_status (wrap8 (Z.land (status c1) (Z.lnot 0x80))) c1.

(** ** What [operator<<] prints for an [int] under [std::hex] *)

Definition hex_digit (d : Z) : ascii :=
  if d <? 10 then ascii_of_nat (Z.to_nat (48 + d))
  else ascii_of_nat (Z.to_nat (87 + d)).

(** Lower-case digits, most significant first, no prefix and no padding.
    [fuel] bounds the number of digits. *)
Fixpoint hex_digits (fuel : nat) (n : Z) (acc : string) : string :=
  match fuel with
  | O => acc
  | S fuel' =>
      let acc' := String (hex_digit (n mod 16)) acc in
      if n / 16 =? 0 then acc' else hex_digits fuel' (n / 16) acc'
  end.

(** A non-negative [int] has at most eight hexadecimal digits. *)
Definition print_hex (n : Z) : string := hex_digits 8 n "".

(** [std::endl] *)
Definition endl : string := String (ascii_of_nat 10) "".

(** The line the [default:] branch sends to [std::cerr]:
    ["Unknown opcode: " << std::hex << static_cast<int>(opcode) << std::endl]. *)
Definition unknown_opcode_line (opcode : Z) : string :=
  ("Unknown opcode: " ++ print_hex opcode ++ endl)%string.

(** ** Instruction dispatch

    [void execute_opcode(uint8_t opcode, Memory& memory)]. The method works
    on the register file, on the memory it is handed by reference, and on
    [std::cerr]; all three are passed in and handed back. *)
Definition execute_opcode (opcode : Z) (c : CPU6502) (memory : Memory)
    (cerr : string) : option (CPU6502 * Memory * string) :=
  if opcode =? 0xA9 then
    (* A = memory.read(PC++); update_zero_and_negative_flags(A); *)
    v ← read memory (PC c);
    let c1 := set_A v (set_PC (wrap16 (PC c + 1)) c) in
    Some (update_zero_and_negative_flags (A c1) c1, memory, cerr)
  else if opcode =? 0xAA then
    (* X = A; update_zero_and_negative_flags(X); *)
    let c1 := set_X (A c) c in
    Some (update_zero_and_negative_flags (X c1) c1, memory, cerr)
  else if opcode =? 0xE8 then
    (* X++; update_zero_and_negative_flags(X); *)
    let c1 := set_X (wrap8 (X c + 1)) c in
    Some (update_zero_and_negative_flags (X c1) c1, memory, cerr)
  else
    (* std::cerr << "Unknown opcode: " << ... << std::endl; *)
    Some (c, memory, (cerr ++ unknown_opcode_line opcode)%string).

(** ** The emulator object

    [class NesticleClone { CPU6502 cpu; Memory memory; PPU ppu;
                           bool running; ... }]. *)

Record NesticleClone : Type := mkNes {
  cpu : CPU6502;
  memory : Memory;
  running : bool
}.

(** What a call hands back to its caller besides the state it leaves
    behind: nothing for a [void] function, an integer otherwise. *)
Inductive retval : Type :=
| RVoid
| RInt (n : Z).

(** [void emulate_cycle() { uint8_t opcode = memory.read(cpu.PC); cpu.PC++;
                            cpu.execute_opcode(opcode, memory); }] *)
Definition emulate_cycle (e : NesticleClone) (cerr : string)
    : option (retval * NesticleClone * string) :=
  opcode ← read (memory e) (PC (cpu e));
  let c1 := set_PC (wrap16 (PC (cpu e) + 1)) (cpu e) in
  '(c2, m2, cerr2) ← execute_opcode opcode c1 (memory e) cerr;
  Some (RVoid, mkNes c2 m2 (running e), cerr2).

(** [n] consecutive calls of [emulate_cycle], as the loop of [run()] issues
    them. *)
Fixpoint cycles (n : nat) (e : NesticleClone) (cerr : string)
    : option (NesticleClone * string) :=
  match n with
  | O => Some (e, cerr)
  | S n' =>
      '(_, e1, cerr1) ← emulate_cycle e cerr;
      cycles n' e1 cerr1
  end.

(** The loop of [load_rom]: the bytes of the file, once read into [buffer],
    are stored from 0x8000 on,
    [for (size_t i = 0; ...) memory.write(0x8000 + i, buffer[i]);].
    The [size_t] sum is converted to the [uint16_t] parameter of [write]. *)
Fixpoint load_rom_from (i : Z) (buffer : list Z) (m : Memory) : option Memory :=
  match buffer with
  | [] => Some m
  | b :: rest =>
      m' ← write m (wrap16 (0x8000 + i)) b;
      load_rom_from (i + 1) rest m'
  end.

Definition load_rom (buffer : list Z) (m : Memory) : option Memory :=
  load_rom_from 0 buffer m.

(** The emulator as [main] has it when it enters [run()]: constructed
    ([memory] zeroed, [running] true, [cpu] not yet initialised: [c0]),
    [init()] has called [cpu.reset()], and [load_rom] has stored the file. *)
Definition startup (buffer : list Z) (c0 : CPU6502) : option NesticleClone :=
  m ← load_rom buffer Memory_new;
  Some (mkNes (reset c0) m true).

(** ** Notions used to state the properties *)

(** The typing of the register file: every field fits its C++ type. *)
Definition cpu_ok (c : CPU6502) : Prop :=
  is_u8 (A c) /\ is_u8 (X c) /\ is_u8 (Y c) /\ is_u8 (SP c) /\
  is_u16 (PC c) /\ is_u8 (status c).

(** The register an implemented instruction writes its result to: [A] for
    LDA immediate (0xA9), [X] for TAX (0xAA) and INX (0xE8). *)
Definition result_register (opcode : Z) (c : CPU6502) : Z :=
  if opcode =? 0xA9 then A c else X c.

(** The status bytes [s] and [s'] agree on every bit but zero (bit 1) and
    negative (bit 7). *)
Definition same_flags_except_ZN (s s' : Z) : Prop :=
  forall i, 0 <= i < 8 -> i <> 1 -> i <> 7 -> Z.testbit s' i = Z.testbit s i.

(** The bytes an instruction occupies, as [emulate_cycle] and
    [execute_opcode] consume them: the opcode, and for LDA immediate its
    operand. *)
Definition instruction_length (opcode : Z) : Z :=
  if opcode =? 0xA9 then 2 else 1.

(** The CPU states the program can be in: what [reset] leaves, and from there
    what the increment of [PC] in [emulate_cycle] and [execute_opcode], on any
    opcode and any memory, lead to. *)
Inductive reachable : CPU6502 -> Prop :=
| reachable_reset c :
    reachable (reset c)
| reachable_fetch c :
    reachable c -> reachable (set_PC (wrap16 (PC c + 1)) c)
| reachable_exec opcode c m cerr c' m' cerr' :
    reachable c ->
    execute_opcode opcode c m cerr = Some (c', m', cerr') ->
    reachable c'.

(** Following the spec's words ([step() -> cycles_consumed]): the cycle count
    a caller reads off what the per-instruction entry point handed back. A
    [void] call hands back none. *)
Definition cycles_consumed (r : option (retval * NesticleClone * string))
    : option Z :=
  match r with
  | Some (RInt n, _, _) => Some n
  | _ => None
  end.

(** Following the spec's words (a vector is "a fixed memory location holding
    the address to jump to"; addresses are "two bytes little-endian"): the
    16-bit word stored at [vec] and [vec + 1]. *)
Definition vector_at (m : Memory) (vec : Z) : option Z :=
  lo ← read m vec;
  hi ← read m (wrap16 (vec + 1));
  Some (lo + 0x100 * hi).

(** ** Concrete machines used as test inputs *)

(** [LDA #$80; TAX; INX] *)
Definition rom_demo : list Z := [0xA9; 0x80; 0xAA; 0xE8].

Definition mem_demo : Memory :=
  mkMemory (replicate (Z.to_nat 0x8000) 0 ++ rom_demo ++
            replicate (Z.to_nat 0x7FFC) 0).

(** [LDA #$42] with its opcode in the last cell and its operand in cell 0. *)
Definition mem_wrap : Memory :=
  mkMemory (0x42 :: replicate (Z.to_nat 0xFFFE) 0 ++ [0xA9]).

(** Registers as they may be before [reset] has run. *)
Definition cpu_garbage : CPU6502 := mkCPU 0x12 0x34 0x56 0x78 0x9ABC 0xDE.

(** Equality of machine states is decidable, so that concrete runs can be
    checked by evaluation. *)
#[global] Instance Memory_eq_dec : EqDecision Memory.
Proof. solve_decision. Defined.

#[global] Instance CPU6502_eq_dec : EqDecision CPU6502.
Proof. solve_decision. Defined.

#[global] Instance NesticleClone_eq_dec : EqDecision NesticleClone.
Proof. solve_decision. Defined.

#[global] Instance retval_eq_dec : EqDecision retval.
Proof. solve_decision. Defined.

(** Closes a decidable closed goal by evaluating its decision procedure. *)
Ltac by_evaluation := apply (bool_decide_unpack _); vm_compute; exact I.

(** ** The event loop

    The events SDL hands to the program are input from outside: one call of
    [handle_input] drains the queue, and sees the [type] field of each event
    that was pending. The value of [SDL_QUIT] comes from the SDL headers,
    which are not part of the repository; it is a parameter here. *)

Section EventLoop.

Variable SDL_QUIT : Z.

Definition set_running (b : bool) (e : NesticleClone) : NesticleClone :=
  mkNes (cpu e) (memory e) b.

(** [while (SDL_PollEvent(&event)) { if (event.type == SDL_QUIT) running = false; }] *)
Fixpoint handle_input (events : list Z) (e : NesticleClone) : NesticleClone :=
  match events with
  | [] => e
  | event_type :: rest =>
      handle_input rest
        (if event_type =? SDL_QUIT then set_running false e else e)
  end.

(** [while (running) { handle_input(); emulate_cycle();
                       ppu.render_frame(renderer); SDL_Delay(16); }].
    [frames] lists, for each turn of the loop, the events pending in it; the
    loop is followed for as many turns as [frames] has. Rendering and the
    delay touch neither the emulator object nor [std::cerr]. *)
Fixpoint run (frames : list (list Z)) (e : NesticleClone) (cerr : string)
    : option (NesticleClone * string) :=
  match frames with
  | [] => Some (e, cerr)
  | events :: rest =>
      if running e then
        let e1 := handle_input events e in
        '(_, e2, cerr2) ← emulate_cycle e1 cerr;
        run rest e2 cerr2
      else Some (e, cerr)
  end.

End EventLoop.

(** ** Further notions used to state properties *)

(** The lines [n] consecutive instructions starting at [pc] send to
    [std::cerr] when each of them is an opcode outside the implemented set:
    one line per byte, in address order, [pc] wrapping at 0xFFFF. *)
Fixpoint unknown_lines (m : Memory) (pc : Z) (n : nat) : string :=
  match n with
  | O => ""
  | S n' =>
      match read m pc with
      | Some opcode =>
          (unknown_opcode_line opcode ++ unknown_lines m (wrap16 (pc + 1)) n')%string
      | None => ""
      end
  end.

(** The opcodes [execute_opcode] has a [case] for. *)
Definition implemented (opcode : Z) : Prop :=
  opcode = 0xA9 \/ opcode = 0xAA \/ opcode = 0xE8.

(** * Supporting lemmas *)

(** ** Bits of the narrow integers *)

Section Bits.

Lemma wrap8_range z : is_u8 (wrap8 z).
Proof.
  unfold is_u8, wrap8.
  pose proof (Z.mod_pos_bound z (2 ^ 8)). lia.
Qed.

Lemma wrap16_range z : is_u16 (wrap16 z).
Proof.
  unfold is_u16, wrap16.
  pose proof (Z.mod_pos_bound z (2 ^ 16)). lia.
Qed.

Lemma testbit_wrap8 z i :
  Z.testbit (wrap8 z) i = (i <? 8) && Z.testbit z i.
Proof. unfold wrap8. apply Z.testbit_mod_pow2. lia. Qed.

(** Masking with a single bit: the C++ test [if (value & 0x80)]. *)
Lemma land_pow2 v k :
  0 <= k -> Z.land v (2 ^ k) = if Z.testbit v k then 2 ^ k else 0.
Proof.
  intros Hk. apply Z.bits_inj'. intros n Hn.
  rewrite Z.land_spec, Z.pow2_bits_eqb by assumption.
  destruct (Z.eqb_spec k n) as [->|Hne].
  - destruct (Z.testbit v n); simpl.
    + now rewrite Z.pow2_bits_true.
    + now rewrite Z.bits_0.
  - rewrite andb_false_r.
    destruct (Z.testbit v k).
    + rewrite Z.pow2_bits_false; [reflexivity | lia].
    + now rewrite Z.bits_0.
Qed.

Lemma land_pow2_eqb v k :
  0 <= k -> (Z.land v (2 ^ k) =? 0) = negb (Z.testbit v k).
Proof.
  intros Hk. rewrite land_pow2 by assumption.
  destruct (Z.testbit v k); simpl.
  - apply Z.eqb_neq. pose proof (Z.pow_pos_nonneg 2 k). lia.
  - reflexivity.
Qed.

Lemma land_pow2_set v k :
  0 <= k -> Z.land v (2 ^ k) = 2 ^ k <-> Z.testbit v k = true.
Proof.
  intros Hk. rewrite land_pow2 by assumption.
  pose proof (Z.pow_pos_nonneg 2 k).
  destruct (Z.testbit v k); split; intros; try reflexivity; try discriminate; lia.
Qed.

Lemma land_0x20 s : Z.land s 0x20 = 0x20 <-> Z.testbit s 5 = true.
Proof. change 0x20 with (2 ^ 5). apply land_pow2_set. lia. Qed.

Lemma wrap16_succ_succ p : wrap16 (wrap16 (p + 1) + 1) = wrap16 (p + 2).
Proof.
  unfold wrap16. rewrite Zplus_mod_idemp_l. f_equal. lia.
Qed.

End Bits.

(** ** The flag update *)

Section Flags.

Lemma update_flags_regs v c :
  let c' := update_zero_and_negative_flags v c in
  A c' = A c /\ X c' = X c /\ Y c' = Y c /\ SP c' = SP c /\ PC c' = PC c.
Proof.
  unfold update_zero_and_negative_flags.
  destruct (v =? 0), (Z.land v 128 =? 0); simpl; auto.
Qed.

Lemma testbit_0x02 i : 0 <= i -> Z.testbit 0x02 i = (i =? 1).
Proof.
  intros Hi. change 0x02 with (2 ^ 1).
  rewrite Z.pow2_bits_eqb by lia. apply Z.eqb_sym.
Qed.

Lemma testbit_0x80 i : 0 <= i -> Z.testbit 0x80 i = (i =? 7).
Proof.
  intros Hi. change 0x80 with (2 ^ 7).
  rewrite Z.pow2_bits_eqb by lia. apply Z.eqb_sym.
Qed.

Lemma land_0x80_eqb v : (Z.land v 0x80 =? 0) = negb (Z.testbit v 7).
Proof. change 0x80 with (2 ^ 7). apply land_pow2_eqb. lia. Qed.

(** Every bit of the status byte after the update, in one formula. *)
Lemma update_flags_bits v c i :
  0 <= i ->
  Z.testbit (status (update_zero_and_negative_flags v c)) i =
    if i =? 1 then (v =? 0)
    else if i =? 7 then Z.testbit v 7
    else (i <? 8) && Z.testbit (status c) i.
Proof.
  intros Hi. unfold update_zero_and_negative_flags.
  rewrite land_0x80_eqb, negb_involutive.
  destruct (v =? 0), (Z.testbit v 7);
    unfold set_status; cbn [status];
    rewrite !testbit_wrap8, ?Z.lor_spec, ?Z.land_spec, ?Z.lnot_spec by lia;
    rewrite !testbit_wrap8, ?Z.lor_spec, ?Z.land_spec, ?Z.lnot_spec by lia;
    rewrite ?testbit_0x02, ?testbit_0x80 by lia;
    destruct (i =? 1) eqn:E1, (i =? 7) eqn:E7, (i <? 8) eqn:E8,
      (Z.testbit (status c) i);
    try reflexivity; lia.
Qed.

Lemma update_flags_status_range v c :
  is_u8 (status (update_zero_and_negative_flags v c)).
Proof.
  unfold update_zero_and_negative_flags.
  destruct (v =? 0), (negb (Z.land v 0x80 =? 0));
    unfold set_status; cbn [status]; apply wrap8_range.
Qed.

End Flags.

(** ** Memory *)

Section MemoryProps.

Lemma Memory_new_ok : mem_ok Memory_new.
Proof.
  unfold mem_ok, Memory_new. cbn [ram]. split.
  - apply length_replicate.
  - apply Forall_replicate. unfold is_u8. lia.
Qed.

Lemma in_bounds_ok m a : mem_ok m -> is_u16 a -> in_bounds m a = true.
Proof.
  intros [Hlen _] Ha. unfold in_bounds, is_u16 in *.
  apply bool_decide_eq_true. rewrite Hlen. lia.
Qed.

Lemma read_ok m a :
  mem_ok m -> is_u16 a -> exists b, read m a = Some b /\ is_u8 b.
Proof.
  intros Hm Ha. unfold read. rewrite in_bounds_ok by assumption.
  destruct Hm as [Hlen Hbytes].
  destruct (lookup_lt_is_Some_2 (ram m) (Z.to_nat a)) as [b Hb].
  - rewrite Hlen. unfold is_u16 in Ha. lia.
  - exists b. split; [assumption |].
    exact (Forall_lookup_1 _ _ _ _ Hbytes Hb).
Qed.

Lemma write_ok m a v :
  mem_ok m -> is_u16 a -> is_u8 v ->
  exists m', write m a v = Some m' /\ mem_ok m'.
Proof.
  intros Hm Ha Hv. unfold write. rewrite in_bounds_ok by assumption.
  eexists. split; [reflexivity |].
  destruct Hm as [Hlen Hbytes]. unfold mem_ok. cbn [ram]. split.
  - now rewrite length_insert.
  - now apply Forall_insert.
Qed.

Lemma read_write_same m a v m' :
  write m a v = Some m' -> read m' a = Some v.
Proof.
  unfold write, read. destruct (in_bounds m a) eqn:Hb; [| discriminate].
  intros [= <-]. unfold in_bounds in *. cbn [ram]. rewrite length_insert, Hb.
  apply bool_decide_eq_true in Hb.
  apply list_lookup_insert_eq. lia.
Qed.

Lemma read_write_other m a v m' b :
  write m a v = Some m' -> 0 <= a -> 0 <= b -> b <> a -> read m' b = read m b.
Proof.
  unfold write, read. destruct (in_bounds m a) eqn:Hb; [| discriminate].
  intros [= <-] Ha Hb0 Hne. unfold in_bounds. cbn [ram]. rewrite length_insert.
  destruct (bool_decide _); [| reflexivity].
  apply list_lookup_insert_ne. lia.
Qed.

Lemma load_rom_from_ok buffer : forall i m,
  mem_ok m -> Forall is_u8 buffer ->
  exists m', load_rom_from i buffer m = Some m' /\ mem_ok m'.
Proof.
  induction buffer as [| b rest IH]; intros i m Hm Hbuf; cbn [load_rom_from].
  - eauto.
  - inversion Hbuf as [| ? ? Hb Hrest]; subst.
    destruct (write_ok m (wrap16 (0x8000 + i)) b Hm (wrap16_range _) Hb)
      as (m1 & -> & Hm1).
    cbn [mbind option_bind]. now apply IH.
Qed.

Lemma mem_demo_loaded : load_rom rom_demo Memory_new = Some mem_demo.
Proof. by_evaluation. Qed.

Lemma mem_demo_ok : mem_ok mem_demo.
Proof.
  unfold mem_ok, mem_demo. cbn [ram]. split.
  - rewrite !length_app, !length_replicate. unfold rom_demo. cbn [length]. lia.
  - rewrite !Forall_app. repeat split.
    + apply Forall_replicate. unfold is_u8. lia.
    + unfold rom_demo, is_u8. repeat constructor; lia.
    + apply Forall_replicate. unfold is_u8. lia.
Qed.

Lemma read_Memory_new a b : read Memory_new a = Some b -> b = 0.
Proof.
  unfold read. destruct (in_bounds Memory_new a); [| discriminate].
  unfold Memory_new. cbn [ram]. intros Hb.
  apply lookup_replicate in Hb. tauto.
Qed.

Lemma write_succeeds m a v :
  mem_ok m -> is_u16 a -> exists m', write m a v = Some m'.
Proof.
  intros Hm Ha. unfold write. rewrite in_bounds_ok by assumption. eauto.
Qed.

(** The word a vector would hold is 0 everywhere in the zeroed memory the
    emulator is constructed with. *)
Lemma vector_at_Memory_new vec w : vector_at Memory_new vec = Some w -> w = 0.
Proof.
  unfold vector_at.
  destruct (read Memory_new vec) as [lo |] eqn:Hlo; [| discriminate].
  destruct (read Memory_new (wrap16 (vec + 1))) as [hi |] eqn:Hhi;
    [| discriminate].
  cbn [mbind option_bind]. intros [= <-].
  apply read_Memory_new in Hlo, Hhi. subst. reflexivity.
Qed.

End MemoryProps.

(** ** Instruction dispatch *)

Section Execute.

Variables (c : CPU6502) (m : Memory) (cerr : string).

Lemma execute_lda v :
  read m (PC c) = Some v ->
  execute_opcode 0xA9 c m cerr =
    Some (update_zero_and_negative_flags v
            (set_A v (set_PC (wrap16 (PC c + 1)) c)), m, cerr).
Proof. intros Hv. unfold execute_opcode. cbn [Z.eqb Pos.eqb]. now rewrite Hv. Qed.

Lemma execute_tax :
  execute_opcode 0xAA c m cerr =
    Some (update_zero_and_negative_flags (A c) (set_X (A c) c), m, cerr).
Proof. reflexivity. Qed.

Lemma execute_inx :
  execute_opcode 0xE8 c m cerr =
    Some (update_zero_and_negative_flags (wrap8 (X c + 1))
            (set_X (wrap8 (X c + 1)) c), m, cerr).
Proof. reflexivity. Qed.

Lemma execute_unknown opcode :
  opcode <> 0xA9 -> opcode <> 0xAA -> opcode <> 0xE8 ->
  execute_opcode opcode c m cerr =
    Some (c, m, (cerr ++ unknown_opcode_line opcode)%string).
Proof.
  intros H1 H2 H3. unfold execute_opcode.
  now rewrite (proj2 (Z.eqb_neq _ _) H1), (proj2 (Z.eqb_neq _ _) H2),
    (proj2 (Z.eqb_neq _ _) H3).
Qed.

(** The four branches of the [switch], as a case analysis on the result. *)
Lemma execute_cases opcode c' m' cerr' :
  execute_opcode opcode c m cerr = Some (c', m', cerr') ->
  m' = m /\
  ((exists v, opcode = 0xA9 /\ read m (PC c) = Some v /\ cerr' = cerr /\
      c' = update_zero_and_negative_flags v
             (set_A v (set_PC (wrap16 (PC c + 1)) c))) \/
   (opcode = 0xAA /\ cerr' = cerr /\
      c' = update_zero_and_negative_flags (A c) (set_X (A c) c)) \/
   (opcode = 0xE8 /\ cerr' = cerr /\
      c' = update_zero_and_negative_flags (wrap8 (X c + 1))
             (set_X (wrap8 (X c + 1)) c)) \/
   (opcode <> 0xA9 /\ opcode <> 0xAA /\ opcode <> 0xE8 /\ c' = c /\
      cerr' = (cerr ++ unknown_opcode_line opcode)%string)).
Proof.
  unfold execute_opcode.
  destruct (Z.eqb_spec opcode 0xA9) as [-> | N1].
  { destruct (read m (PC c)) as [v |] eqn:Hv; [| discriminate].
    cbn [mbind option_bind]. intros [= <- <- <-].
    split; [reflexivity |]. left. exists v. auto. }
  destruct (Z.eqb_spec opcode 0xAA) as [-> | N2].
  { intros [= <- <- <-]. split; [reflexivity |]. right; left. auto. }
  destruct (Z.eqb_spec opcode 0xE8) as [-> | N3].
  { intros [= <- <- <-]. split; [reflexivity |]. right; right; left. auto. }
  intros [= <- <- <-]. split; [reflexivity |]. right; right; right. auto.
Qed.

Lemma execute_total opcode :
  mem_ok m -> is_u16 (PC c) ->
  exists c' cerr', execute_opcode opcode c m cerr = Some (c', m, cerr').
Proof.
  intros Hm Hpc.
  destruct (Z.eq_dec opcode 0xA9) as [-> | N1].
  { destruct (read_ok m (PC c) Hm Hpc) as (v & Hv & _).
    rewrite (execute_lda v Hv). eauto. }
  destruct (Z.eq_dec opcode 0xAA) as [-> | N2]; [rewrite execute_tax; eauto |].
  destruct (Z.eq_dec opcode 0xE8) as [-> | N3]; [rewrite execute_inx; eauto |].
  rewrite execute_unknown by assumption. eauto.
Qed.

(** What no instruction touches: [Y], [SP], and the status bits other than
    zero and negative. *)
Lemma execute_frame opcode c' m' cerr' :
  execute_opcode opcode c m cerr = Some (c', m', cerr') ->
  Y c' = Y c /\ SP c' = SP c /\ same_flags_except_ZN (status c) (status c').
Proof.
  intros Hex. apply execute_cases in Hex as [_ Hcases].
  assert (Hupd : forall v c0, Y c0 = Y c -> SP c0 = SP c -> status c0 = status c ->
    Y (update_zero_and_negative_flags v c0) = Y c /\
    SP (update_zero_and_negative_flags v c0) = SP c /\
    same_flags_except_ZN (status c) (status (update_zero_and_negative_flags v c0))).
  { intros v c0 HY HS Hst.
    destruct (update_flags_regs v c0) as (_ & _ & HY' & HS' & _).
    split; [congruence |]. split; [congruence |].
    intros i Hi N1 N7. rewrite update_flags_bits by lia.
    rewrite (proj2 (Z.eqb_neq _ _) N1), (proj2 (Z.eqb_neq _ _) N7), Hst.
    now rewrite (proj2 (Z.ltb_lt i 8)) by lia. }
  destruct Hcases as [(v & _ & _ & _ & ->) | [(_ & _ & ->) | [(_ & _ & ->) |
    (_ & _ & _ & -> & _)]]]; try (apply Hupd; reflexivity).
  split; [reflexivity |]. split; [reflexivity |]. intros i _ _ _. reflexivity.
Qed.

Lemma execute_PC opcode c' m' cerr' :
  execute_opcode opcode c m cerr = Some (c', m', cerr') ->
  PC c' = if opcode =? 0xA9 then wrap16 (PC c + 1) else PC c.
Proof.
  intros Hex. apply execute_cases in Hex as [_ Hcases].
  destruct Hcases as [(v & -> & _ & _ & ->) | [(-> & _ & ->) | [(-> & _ & ->) |
    (N1 & _ & _ & -> & _)]]].
  - now destruct (update_flags_regs v (set_A v (set_PC (wrap16 (PC c + 1)) c)))
      as (_ & _ & _ & _ & ->).
  - now destruct (update_flags_regs (A c) (set_X (A c) c)) as (_ & _ & _ & _ & ->).
  - now destruct (update_flags_regs (wrap8 (X c + 1)) (set_X (wrap8 (X c + 1)) c))
      as (_ & _ & _ & _ & ->).
  - now rewrite (proj2 (Z.eqb_neq _ _) N1).
Qed.

Lemma execute_keeps_bit5 opcode c' m' cerr' :
  execute_opcode opcode c m cerr = Some (c', m', cerr') ->
  Z.testbit (status c') 5 = Z.testbit (status c) 5.
Proof.
  intros Hex. apply execute_frame in Hex as (_ & _ & Hflags).
  apply Hflags; lia.
Qed.

(** Every field stays within its C++ type. *)
Lemma execute_cpu_ok opcode c' m' cerr' :
  mem_ok m -> cpu_ok c ->
  execute_opcode opcode c m cerr = Some (c', m', cerr') ->
  cpu_ok c'.
Proof.
  intros Hm (HA & HX & HY & HS & HP & Hst) Hex.
  assert (Hupd : forall v c0,
    is_u8 (A c0) -> is_u8 (X c0) -> is_u8 (Y c0) -> is_u8 (SP c0) ->
    is_u16 (PC c0) -> cpu_ok (update_zero_and_negative_flags v c0)).
  { intros v c0 H1 H2 H3 H4 H5.
    destruct (update_flags_regs v c0) as (E1 & E2 & E3 & E4 & E5).
    unfold cpu_ok. rewrite E1, E2, E3, E4, E5.
    repeat (split; [assumption |]). apply update_flags_status_range. }
  apply execute_cases in Hex as [_ Hcases].
  destruct Hcases as [(v & _ & Hv & _ & ->) | [(_ & _ & ->) | [(_ & _ & ->) |
    (_ & _ & _ & -> & _)]]].
  - apply Hupd; cbn [A X Y SP PC set_A set_PC]; try assumption.
    + destruct (read_ok m (PC c) Hm HP) as (b & Hb & Hrange). congruence.
    + apply wrap16_range.
  - apply Hupd; cbn [A X Y SP PC set_X]; assumption.
  - apply Hupd; cbn [A X Y SP PC set_X]; try assumption. apply wrap8_range.
  - unfold cpu_ok. tauto.
Qed.

End Execute.

(** ** One call of [emulate_cycle] *)

Section EmulateCycle.

Lemma emulate_cycle_eq e cerr opcode c' m' cerr' :
  read (memory e) (PC (cpu e)) = Some opcode ->
  execute_opcode opcode (set_PC (wrap16 (PC (cpu e) + 1)) (cpu e))
    (memory e) cerr = Some (c', m', cerr') ->
  emulate_cycle e cerr = Some (RVoid, mkNes c' m' (running e), cerr').
Proof.
  intros Hop Hex. unfold emulate_cycle. rewrite Hop. cbn [mbind option_bind].
  rewrite Hex. reflexivity.
Qed.

Lemma emulate_cycle_inv e cerr r e' cerr' :
  emulate_cycle e cerr = Some (r, e', cerr') ->
  exists opcode c' m',
    read (memory e) (PC (cpu e)) = Some opcode /\
    execute_opcode opcode (set_PC (wrap16 (PC (cpu e) + 1)) (cpu e))
      (memory e) cerr = Some (c', m', cerr') /\
    r = RVoid /\ e' = mkNes c' m' (running e).
Proof.
  unfold emulate_cycle.
  destruct (read (memory e) (PC (cpu e))) as [opcode |] eqn:Hop;
    [| discriminate].
  cbn [mbind option_bind].
  destruct (execute_opcode opcode (set_PC (wrap16 (PC (cpu e) + 1)) (cpu e))
              (memory e) cerr) as [[[c' m'] cerr1] |] eqn:Hex;
    [| discriminate].
  intros [= <- <- <-]. exists opcode, c', m'. repeat split. exact Hex.
Qed.

(** Fetch, increment, dispatch: each exactly once. *)
Lemma emulate_cycle_total e cerr :
  mem_ok (memory e) -> is_u16 (PC (cpu e)) ->
  exists opcode c' cerr',
    read (memory e) (PC (cpu e)) = Some opcode /\
    execute_opcode opcode (set_PC (wrap16 (PC (cpu e) + 1)) (cpu e))
      (memory e) cerr = Some (c', memory e, cerr') /\
    emulate_cycle e cerr = Some (RVoid, mkNes c' (memory e) (running e), cerr').
Proof.
  intros Hm Hpc.
  destruct (read_ok _ _ Hm Hpc) as (opcode & Hop & _).
  destruct (execute_total (set_PC (wrap16 (PC (cpu e) + 1)) (cpu e))
              (memory e) cerr opcode Hm) as (c' & cerr' & Hex).
  { cbn [PC set_PC]. apply wrap16_range. }
  exists opcode, c', cerr'. split; [exact Hop |]. split; [exact Hex |].
  exact (emulate_cycle_eq e cerr opcode c' (memory e) cerr' Hop Hex).
Qed.

Lemma emulate_cycle_frame e cerr :
  mem_ok (memory e) -> is_u16 (PC (cpu e)) ->
  exists e' cerr',
    emulate_cycle e cerr = Some (RVoid, e', cerr') /\
    memory e' = memory e /\ running e' = running e /\
    SP (cpu e') = SP (cpu e) /\ is_u16 (PC (cpu e')) /\
    Z.testbit (status (cpu e')) 2 = Z.testbit (status (cpu e)) 2.
Proof.
  intros Hm Hpc.
  destruct (emulate_cycle_total e cerr Hm Hpc)
    as (opcode & c' & cerr' & _ & Hex & Hcyc).
  exists (mkNes c' (memory e) (running e)), cerr'.
  split; [exact Hcyc |]. cbn [memory running cpu].
  split; [reflexivity |]. split; [reflexivity |].
  destruct (execute_frame _ _ _ _ _ _ _ Hex) as (_ & HSP & Hflags).
  split; [exact HSP |]. split.
  - rewrite (execute_PC _ _ _ _ _ _ _ Hex). cbn [PC set_PC].
    destruct (opcode =? 0xA9); apply wrap16_range.
  - apply Hflags; lia.
Qed.

End EmulateCycle.

(** ** Runs of the program *)

Section Runs.

Lemma reset_cpu_ok c : cpu_ok (reset c).
Proof. unfold cpu_ok, reset, is_u8, is_u16. cbn [A X Y SP PC status]. lia. Qed.

Lemma reachable_bit5 c : reachable c -> Z.testbit (status c) 5 = true.
Proof.
  intros Hreach.
  induction Hreach as [c0 | c0 _ IH | opcode c0 m cerr c' m' cerr' _ IH Hex].
  - reflexivity.
  - exact IH.
  - rewrite (execute_keeps_bit5 _ _ _ _ _ _ _ Hex). exact IH.
Qed.

Lemma emulate_cycle_reachable e cerr r e' cerr' :
  reachable (cpu e) -> emulate_cycle e cerr = Some (r, e', cerr') ->
  reachable (cpu e').
Proof.
  intros Hreach Hcyc.
  apply emulate_cycle_inv in Hcyc as (opcode & c' & m' & _ & Hex & _ & ->).
  cbn [cpu]. eapply reachable_exec; [| exact Hex].
  now apply reachable_fetch.
Qed.

Lemma cycles_reachable n : forall e cerr e' cerr',
  reachable (cpu e) -> cycles n e cerr = Some (e', cerr') ->
  reachable (cpu e').
Proof.
  induction n as [| n IH]; intros e cerr e' cerr' Hreach; cbn [cycles].
  - now intros [= <- <-].
  - destruct (emulate_cycle e cerr) as [[[r e1] cerr1] |] eqn:Hcyc;
      [| discriminate].
    cbn [mbind option_bind]. apply IH.
    exact (emulate_cycle_reachable _ _ _ _ _ Hreach Hcyc).
Qed.

Lemma cycles_total n : forall e cerr,
  mem_ok (memory e) -> is_u16 (PC (cpu e)) ->
  exists e' cerr', cycles n e cerr = Some (e', cerr').
Proof.
  induction n as [| n IH]; intros e cerr Hm Hpc; cbn [cycles].
  - eauto.
  - destruct (emulate_cycle_frame e cerr Hm Hpc)
      as (e1 & cerr1 & -> & Hmem & _ & _ & Hpc1 & _).
    cbn [mbind option_bind]. apply IH; [now rewrite Hmem | exact Hpc1].
Qed.

(** The program as [main] runs it: any ROM image of bytes loads, and any
    number of instructions then executes, through reachable states only. *)
Lemma startup_then_cycles buffer c0 n :
  Forall is_u8 buffer ->
  exists e e' cerr',
    startup buffer c0 = Some e /\
    cycles n e "" = Some (e', cerr') /\
    reachable (cpu e').
Proof.
  intros Hbuf. unfold startup, load_rom.
  destruct (load_rom_from_ok buffer 0 Memory_new Memory_new_ok Hbuf)
    as (m & -> & Hm).
  cbn [mbind option_bind].
  destruct (cycles_total n (mkNes (reset c0) m true) "") as (e' & cerr' & Hrun).
  - exact Hm.
  - unfold is_u16. cbn [PC cpu reset]. lia.
  - exists (mkNes (reset c0) m true), e', cerr'.
    split; [reflexivity |]. split; [exact Hrun |].
    apply (cycles_reachable n (mkNes (reset c0) m true) "" e' cerr'
             (reachable_reset c0) Hrun).
Qed.

End Runs.

(** * The properties of the specification *)

(** ** Flags after LDA, TAX and INX *)

(** C1. For each of the three implemented instructions (LDA immediate
    writing [A], TAX and INX writing [X]), executed on any register file and
    any 64KB memory, the instruction completes, the zero flag (status bit 1)
    is set exactly when the value written is zero, the negative flag (status
    bit 7) is bit 7 of that value, and the other six status bits are as
    before. *)
Theorem flags_follow_result opcode c m cerr :
  mem_ok m -> is_u16 (PC c) ->
  opcode = 0xA9 \/ opcode = 0xAA \/ opcode = 0xE8 ->
  exists c',
    execute_opcode opcode c m cerr = Some (c', m, cerr) /\
    Z.testbit (status c') 1 = (result_register opcode c' =? 0) /\
    Z.testbit (status c') 7 = Z.testbit (result_register opcode c') 7 /\
    same_flags_except_ZN (status c) (status c').
Proof.
  intros Hm Hpc Hop.
  assert (Hupd : forall v c0, v = result_register opcode
                                    (update_zero_and_negative_flags v c0) ->
    let c' := update_zero_and_negative_flags v c0 in
    Z.testbit (status c') 1 = (result_register opcode c' =? 0) /\
    Z.testbit (status c') 7 = Z.testbit (result_register opcode c') 7).
  { intros v c0 Hv c'. subst c'. rewrite <- Hv.
    rewrite !update_flags_bits by lia. split; reflexivity. }
  destruct Hop as [-> | [-> | ->]].
  - destruct (read_ok m (PC c) Hm Hpc) as (v & Hv & _).
    eexists. split; [exact (execute_lda c m cerr v Hv) |].
    destruct (Hupd v (set_A v (set_PC (wrap16 (PC c + 1)) c))) as [HZ HN].
    { unfold result_register. cbn [Z.eqb Pos.eqb].
      now destruct (update_flags_regs v (set_A v (set_PC (wrap16 (PC c + 1)) c)))
        as (-> & _). }
    split; [exact HZ |]. split; [exact HN |].
    exact (proj2 (proj2 (execute_frame c m cerr _ _ _ _ (execute_lda c m cerr v Hv)))).
  - eexists. split; [exact (execute_tax c m cerr) |].
    destruct (Hupd (A c) (set_X (A c) c)) as [HZ HN].
    { unfold result_register. cbn [Z.eqb Pos.eqb].
      now destruct (update_flags_regs (A c) (set_X (A c) c)) as (_ & -> & _). }
    split; [exact HZ |]. split; [exact HN |].
    exact (proj2 (proj2 (execute_frame c m cerr _ _ _ _ (execute_tax c m cerr)))).
  - eexists. split; [exact (execute_inx c m cerr) |].
    destruct (Hupd (wrap8 (X c + 1)) (set_X (wrap8 (X c + 1)) c)) as [HZ HN].
    { unfold result_register. cbn [Z.eqb Pos.eqb].
      now destruct (update_flags_regs (wrap8 (X c + 1)) (set_X (wrap8 (X c + 1)) c))
        as (_ & -> & _). }
    split; [exact HZ |]. split; [exact HN |].
    exact (proj2 (proj2 (execute_frame c m cerr _ _ _ _ (execute_inx c m cerr)))).
Qed.

(** [LDA #$80] at 0x8000, executed with [PC] already past the opcode. *)
Lemma flags_follow_result_witness :
  exists c',
    execute_opcode 0xA9 (mkCPU 0 0 0 0xFD 0x8001 0x24) mem_demo "" =
      Some (c', mem_demo, "") /\
    Z.testbit (status c') 1 = (result_register 0xA9 c' =? 0) /\
    Z.testbit (status c') 7 = Z.testbit (result_register 0xA9 c') 7 /\
    same_flags_except_ZN 0x24 (status c').
Proof.
  apply (flags_follow_result 0xA9 (mkCPU 0 0 0 0xFD 0x8001 0x24) mem_demo "").
  - exact mem_demo_ok.
  - unfold is_u16. cbn [PC]. lia.
  - left. reflexivity.
Defined.

(** ** Reset *)

(** C2, as the claim states it, fails: there is no address whose stored
    word is what [reset] puts in [PC] for every memory. On the zeroed memory
    of a fresh emulator every stored word is 0, and [reset] sets [PC] to
    0x8000. *)
Lemma reset_pc_is_not_vector_derived :
  ~ exists vec, forall m,
      mem_ok m -> vector_at m vec = Some (PC (reset cpu_garbage)).
Proof.
  intros [vec Hvec].
  specialize (Hvec Memory_new Memory_new_ok).
  apply vector_at_Memory_new in Hvec. discriminate Hvec.
Qed.

(** C2, amended. After [reset()], whatever the registers held before,
    [A = X = Y = 0], [SP = 0xFD], [status = 0x24] and [PC] is the constant
    0x8000. *)
Theorem reset_state c :
  A (reset c) = 0 /\ X (reset c) = 0 /\ Y (reset c) = 0 /\
  SP (reset c) = 0xFD /\ status (reset c) = 0x24 /\ PC (reset c) = 0x8000.
Proof. repeat split. Qed.

(** ** Opcodes outside the implemented set *)

(** C3, as the claim states it, fails on the cycle cost: the emulator as
    constructed and reset finds opcode 0x00 at 0x8000, [emulate_cycle]
    returns, and what it hands back carries no cycle count, so not 2. *)
Lemma unknown_opcode_reports_no_cycles :
  read Memory_new (PC (reset cpu_garbage)) = Some 0x00 /\
  is_Some (emulate_cycle (mkNes (reset cpu_garbage) Memory_new true) "") /\
  cycles_consumed
    (emulate_cycle (mkNes (reset cpu_garbage) Memory_new true) "") = None.
Proof.
  split; [vm_compute; reflexivity |].
  split; [by_evaluation | vm_compute; reflexivity].
Qed.

(** C3, amended. When the byte at [PC] is none of 0xA9, 0xAA and 0xE8,
    [emulate_cycle] returns normally and hands back nothing; it appends the
    line "Unknown opcode: <hex>" to [std::cerr], advances [PC] by one (mod
    0x10000), and leaves [A], [X], [Y], [SP], [status], all of memory and
    [running] as they were. *)
Theorem unknown_opcode_is_reported_noop e cerr opcode :
  read (memory e) (PC (cpu e)) = Some opcode ->
  opcode <> 0xA9 -> opcode <> 0xAA -> opcode <> 0xE8 ->
  emulate_cycle e cerr =
    Some (RVoid,
          mkNes (mkCPU (A (cpu e)) (X (cpu e)) (Y (cpu e)) (SP (cpu e))
                   (wrap16 (PC (cpu e) + 1)) (status (cpu e)))
            (memory e) (running e),
          (cerr ++ unknown_opcode_line opcode)%string).
Proof.
  intros Hop N1 N2 N3.
  apply (emulate_cycle_eq e cerr opcode); [exact Hop |].
  now apply execute_unknown.
Qed.

(** Opcode 0x00 at 0x8000 in the zeroed memory, right after [reset]. *)
Lemma unknown_opcode_is_reported_noop_witness :
  emulate_cycle (mkNes (reset cpu_garbage) Memory_new true) "" =
    Some (RVoid,
          mkNes (mkCPU 0 0 0 0xFD (wrap16 (0x8000 + 1)) 0x24) Memory_new true,
          ("" ++ unknown_opcode_line 0x00)%string).
Proof.
  apply (unknown_opcode_is_reported_noop
           (mkNes (reset cpu_garbage) Memory_new true) "" 0x00).
  - vm_compute. reflexivity.
  - lia.
  - lia.
  - lia.
Defined.

(** ** Memory accesses stay in bounds *)

(** C4. On a memory of the shape the constructor gives it (0x10000 byte
    cells), for every 16-bit address [read] returns a byte and [write] of a
    byte succeeds, leaving a memory of the same shape: no access is out of
    bounds. *)
Theorem memory_access_in_bounds m a v :
  mem_ok m -> is_u16 a -> is_u8 v ->
  (exists b, read m a = Some b /\ is_u8 b) /\
  (exists m', write m a v = Some m' /\ mem_ok m').
Proof.
  intros Hm Ha Hv. split.
  - now apply read_ok.
  - now apply write_ok.
Qed.

(** The last address of the freshly constructed memory. *)
Lemma memory_access_in_bounds_witness :
  (exists b, read Memory_new 0xFFFF = Some b /\ is_u8 b) /\
  (exists m', write Memory_new 0xFFFF 0xEA = Some m' /\ mem_ok m').
Proof.
  apply (memory_access_in_bounds Memory_new 0xFFFF 0xEA).
  - exact Memory_new_ok.
  - unfold is_u16. lia.
  - unfold is_u8. lia.
Defined.

(** ** Mirroring *)

(** C5, as the claim states it, fails: 0x0000 and 0x0800 agree in their low
    eleven bits, yet after writing 0x5A to 0x0000 of the zeroed memory the
    cell 0x0800 still reads 0. *)
Lemma ram_is_not_mirrored_at_0x0800 :
  Z.land 0x0800 0x07FF = Z.land 0x0000 0x07FF /\
  (write Memory_new 0x0000 0x5A ≫= fun m' => read m' 0x0800) = Some 0x00 /\
  (write Memory_new 0x0000 0x5A ≫= fun m' => read m' 0x0000) = Some 0x5A.
Proof.
  split; [reflexivity |]. split; vm_compute; reflexivity.
Qed.

(** C5, amended. Memory is a flat array without mirrors: after
    [write(a, v)] the address [a] itself reads [v], and every other address
    [a'] whose low eleven bits are those of [a] reads what it held before the
    write. *)
Theorem mirror_aliases_keep_their_own_cell m a a' v :
  mem_ok m -> is_u16 a -> is_u16 a' ->
  Z.land a' 0x07FF = Z.land a 0x07FF ->
  exists m',
    write m a v = Some m' /\
    read m' a' = if decide (a' = a) then Some v else read m a'.
Proof.
  intros Hm Ha Ha' _.
  destruct (write_succeeds m a v Hm Ha) as [m' Hw].
  exists m'. split; [exact Hw |].
  destruct (decide (a' = a)) as [-> | Hne].
  - exact (read_write_same m a v m' Hw).
  - unfold is_u16 in *. apply (read_write_other m a v m' a' Hw); lia.
Qed.

(** 0x0000 written, its alias 0x0800 read. *)
Lemma mirror_aliases_keep_their_own_cell_witness :
  exists m',
    write Memory_new 0x0000 0x5A = Some m' /\
    read m' 0x0800 =
      if decide (0x0800 = 0x0000) then Some 0x5A else read Memory_new 0x0800.
Proof.
  apply (mirror_aliases_keep_their_own_cell Memory_new 0x0000 0x0800 0x5A).
  - exact Memory_new_ok.
  - unfold is_u16. lia.
  - unfold is_u16. lia.
  - reflexivity.
Defined.

(** ** What [emulate_cycle] hands back *)

(** C6, as the claim states it, fails: with [LDA #$80] at [PC] the call
    returns, and what it hands back carries no cycle count. *)
Lemma emulate_cycle_returns_no_cycles :
  is_Some (emulate_cycle (mkNes (reset cpu_garbage) mem_demo true) "") /\
  cycles_consumed
    (emulate_cycle (mkNes (reset cpu_garbage) mem_demo true) "") = None.
Proof. split; [by_evaluation | vm_compute; reflexivity]. Qed.

(** C6, amended. Every call of [emulate_cycle] on a 64KB memory executes
    exactly one instruction: it fetches the byte at [PC], dispatches it once
    through [execute_opcode] with [PC] past the opcode, leaves [PC] advanced
    by that instruction's length, and returns normally handing back nothing
    ([void]): no cycle count. *)
Theorem emulate_cycle_one_instruction e cerr :
  mem_ok (memory e) -> is_u16 (PC (cpu e)) ->
  exists opcode c' cerr',
    read (memory e) (PC (cpu e)) = Some opcode /\
    execute_opcode opcode (set_PC (wrap16 (PC (cpu e) + 1)) (cpu e))
      (memory e) cerr = Some (c', memory e, cerr') /\
    emulate_cycle e cerr = Some (RVoid, mkNes c' (memory e) (running e), cerr') /\
    PC c' = wrap16 (PC (cpu e) + instruction_length opcode).
Proof.
  intros Hm Hpc.
  destruct (emulate_cycle_total e cerr Hm Hpc)
    as (opcode & c' & cerr' & Hop & Hex & Hcyc).
  exists opcode, c', cerr'. repeat (split; [assumption |]).
  rewrite (execute_PC _ _ _ _ _ _ _ Hex). unfold instruction_length.
  cbn [PC set_PC].
  destruct (opcode =? 0xA9); [apply wrap16_succ_succ | reflexivity].
Qed.

(** [LDA #$80] at 0x8000, right after [reset]. *)
Lemma emulate_cycle_one_instruction_witness :
  exists opcode c' cerr',
    read mem_demo 0x8000 = Some opcode /\
    execute_opcode opcode (set_PC (wrap16 (0x8000 + 1)) (reset cpu_garbage))
      mem_demo "" = Some (c', mem_demo, cerr') /\
    emulate_cycle (mkNes (reset cpu_garbage) mem_demo true) "" =
      Some (RVoid, mkNes c' mem_demo true, cerr') /\
    PC c' = wrap16 (0x8000 + instruction_length opcode).
Proof.
  apply (emulate_cycle_one_instruction (mkNes (reset cpu_garbage) mem_demo true) "").
  - exact mem_demo_ok.
  - unfold is_u16. cbn [PC cpu reset]. lia.
Defined.

(** ** The unused status bit *)

(** C8. Status bit 5 is set in every reachable CPU state: [reset] sets it
    ([status = 0x24]), and neither the increment of [PC] nor the execution of
    any opcode, on any memory, clears it. *)
Theorem unused_bit_always_set c :
  reachable c -> Z.land (status c) 0x20 = 0x20.
Proof.
  intros Hreach. apply land_0x20. now apply reachable_bit5.
Qed.

(** The state after [reset] and one INX. *)
Lemma unused_bit_always_set_witness :
  reachable (mkCPU 0 1 0 0xFD 0x8000 0x24) /\
  Z.land (status (mkCPU 0 1 0 0xFD 0x8000 0x24)) 0x20 = 0x20.
Proof.
  assert (Hreach : reachable (mkCPU 0 1 0 0xFD 0x8000 0x24)).
  { apply (reachable_exec 0xE8 (reset cpu_garbage) Memory_new ""
             (mkCPU 0 1 0 0xFD 0x8000 0x24) Memory_new "").
    - apply reachable_reset.
    - reflexivity. }
  split; [exact Hreach |].
  exact (unused_bit_always_set _ Hreach).
Defined.

(** ** INX *)

(** C9. INX (0xE8) completes on every state and replaces [X] by
    [(X + 1) mod 256]; [A], [Y], [SP], [PC], the memory, [std::cerr] and the
    status bits other than zero and negative are as before; from
    [X = 0xFF] the new [X] is 0, the zero flag is set and the negative flag is
    clear. *)
Theorem inx_increments_mod_256 c m cerr :
  exists c',
    execute_opcode 0xE8 c m cerr = Some (c', m, cerr) /\
    X c' = (X c + 1) mod 256 /\
    A c' = A c /\ Y c' = Y c /\ SP c' = SP c /\ PC c' = PC c /\
    same_flags_except_ZN (status c) (status c') /\
    (X c = 0xFF ->
     X c' = 0 /\ Z.testbit (status c') 1 = true /\
     Z.testbit (status c') 7 = false).
Proof.
  eexists. split; [exact (execute_inx c m cerr) |].
  set (c1 := set_X (wrap8 (X c + 1)) c).
  destruct (update_flags_regs (wrap8 (X c + 1)) c1) as (HA & HX & HY & HS & HP).
  destruct (execute_frame c m cerr _ _ _ _ (execute_inx c m cerr))
    as (_ & _ & Hflags).
  fold c1 in Hflags.
  rewrite HA, HX, HY, HS, HP. subst c1. cbn [A X Y SP PC set_X].
  repeat (split; [first [reflexivity | exact Hflags] |]).
  intros HFF. rewrite !update_flags_bits by lia. rewrite HFF.
  repeat split.
Qed.

(** INX from [X = 0xFF] on the registers [reset] leaves. *)
Lemma inx_increments_mod_256_witness :
  exists c',
    execute_opcode 0xE8 (mkCPU 0 0xFF 0 0xFD 0x8000 0x24) Memory_new "" =
      Some (c', Memory_new, "") /\
    X c' = (0xFF + 1) mod 256 /\
    A c' = 0 /\ Y c' = 0 /\ SP c' = 0xFD /\ PC c' = 0x8000 /\
    same_flags_except_ZN 0x24 (status c') /\
    (0xFF = 0xFF ->
     X c' = 0 /\ Z.testbit (status c') 1 = true /\
     Z.testbit (status c') 7 = false).
Proof.
  exact (inx_increments_mod_256 (mkCPU 0 0xFF 0 0xFD 0x8000 0x24) Memory_new "").
Defined.

(** ** Memory round trip *)

(** C10. On a 64KB memory, a [write] to a 16-bit address succeeds; the
    [read] of that address right after returns the value written, and the
    [read] of any other address returns what it returned before. *)
Theorem memory_round_trip m a v :
  mem_ok m -> is_u16 a ->
  exists m',
    write m a v = Some m' /\
    read m' a = Some v /\
    forall b, is_u16 b -> b <> a -> read m' b = read m b.
Proof.
  intros Hm Ha.
  destruct (write_succeeds m a v Hm Ha) as [m' Hw]. exists m'.
  split; [exact Hw |]. split.
  - exact (read_write_same m a v m' Hw).
  - intros b Hb Hne. unfold is_u16 in *.
    apply (read_write_other m a v m' b Hw); lia.
Qed.

(** A write into the loaded demonstration program. *)
Lemma memory_round_trip_witness :
  exists m',
    write mem_demo 0x8001 0x7F = Some m' /\
    read m' 0x8001 = Some 0x7F /\
    forall b, is_u16 b -> b <> 0x8001 -> read m' b = read mem_demo b.
Proof.
  apply (memory_round_trip mem_demo 0x8001 0x7F).
  - exact mem_demo_ok.
  - unfold is_u16. lia.
Defined.

(** * Further properties of the code *)

(** ** Flag updates *)

Section FlagAlgebra.

(** The update rewrites [status] and nothing else. *)
Lemma update_flags_shape v c :
  update_zero_and_negative_flags v c =
    set_status (status (update_zero_and_negative_flags v c)) c.
Proof.
  unfold update_zero_and_negative_flags.
  destruct (v =? 0), (negb (Z.land v 0x80 =? 0)); reflexivity.
Qed.

Lemma set_status_update_flags s v c :
  set_status s (update_zero_and_negative_flags v c) = set_status s c.
Proof.
  unfold update_zero_and_negative_flags.
  destruct (v =? 0), (negb (Z.land v 0x80 =? 0)); reflexivity.
Qed.

(** On the status values the program can reach, the update has three
    outcomes. *)
Lemma update_flags_status_closed v c :
  status c = 0x24 \/ status c = 0x26 \/ status c = 0xA4 ->
  status (update_zero_and_negative_flags v c) =
    if v =? 0 then 0x26 else if Z.testbit v 7 then 0xA4 else 0x24.
Proof.
  intros Hs. unfold update_zero_and_negative_flags.
  rewrite land_0x80_eqb, negb_involutive.
  destruct (Z.eqb_spec v 0) as [-> | _].
  - cbn [Z.testbit]. unfold set_status. cbn [status].
    destruct Hs as [-> | [-> | ->]]; reflexivity.
  - destruct (Z.testbit v 7); unfold set_status; cbn [status];
      destruct Hs as [-> | [-> | ->]]; reflexivity.
Qed.

End FlagAlgebra.

(** X1. Of two flag updates in a row only the second counts: updating for
    [v1] and then for [v2] leaves the registers exactly as updating for [v2]
    alone does. *)
Theorem flags_last_update_wins v1 v2 c :
  update_zero_and_negative_flags v2 (update_zero_and_negative_flags v1 c) =
  update_zero_and_negative_flags v2 c.
Proof.
  etransitivity;
    [exact (update_flags_shape v2 (update_zero_and_negative_flags v1 c)) |].
  etransitivity; [| symmetry; exact (update_flags_shape v2 c)].
  rewrite set_status_update_flags.
  f_equal. apply Z.bits_inj'. intros n Hn.
  rewrite !update_flags_bits by assumption.
  destruct (n =? 1); [reflexivity |].
  destruct (n =? 7); [reflexivity |].
  now destruct (n <? 8).
Qed.

(** X2. After a flag update the zero flag and the negative flag are never
    both set, whatever the value and the status before. *)
Theorem zero_and_negative_exclude_each_other v c :
  Z.testbit (status (update_zero_and_negative_flags v c)) 1 &&
  Z.testbit (status (update_zero_and_negative_flags v c)) 7 = false.
Proof.
  rewrite !update_flags_bits by lia. cbn [Z.eqb Pos.eqb].
  destruct (Z.eqb_spec v 0) as [-> | _]; reflexivity.
Qed.

(** ** What the program can never reach *)

(** X3. In every reachable CPU state [Y] is 0, [SP] is 0xFD, and [status]
    is one of 0x24, 0x26 and 0xA4: interrupt-disable and the unused bit stay
    set, carry, decimal, break and overflow stay clear, and zero and negative
    are not set together. *)
Theorem reachable_registers c :
  reachable c ->
  Y c = 0 /\ SP c = 0xFD /\
  (status c = 0x24 \/ status c = 0x26 \/ status c = 0xA4).
Proof.
  intros Hreach.
  induction Hreach as [c0 | c0 _ IH | opcode c0 m cerr c' m' cerr' _ IH Hex].
  - repeat split. left. reflexivity.
  - exact IH.
  - destruct IH as (HY & HSP & Hst).
    destruct (execute_frame _ _ _ _ _ _ _ Hex) as (HY' & HSP' & _).
    split; [congruence |]. split; [congruence |].
    assert (Hupd : forall v c1, status c1 = status c0 ->
      status (update_zero_and_negative_flags v c1) = 0x24 \/
      status (update_zero_and_negative_flags v c1) = 0x26 \/
      status (update_zero_and_negative_flags v c1) = 0xA4).
    { intros v c1 Hc1. rewrite update_flags_status_closed by now rewrite Hc1.
      destruct (v =? 0); [tauto |]. destruct (Z.testbit v 7); tauto. }
    apply execute_cases in Hex as [_ Hcases].
    destruct Hcases as [(v & _ & _ & _ & ->) | [(_ & _ & ->) | [(_ & _ & ->) |
      (_ & _ & _ & -> & _)]]];
      try (apply Hupd; reflexivity).
    exact Hst.
Qed.

(** The state after [reset] and [LDA #$80] executed past its opcode. *)
Lemma reachable_registers_witness :
  reachable (mkCPU 0x80 0 0 0xFD 0x8002 0xA4) /\
  Y (mkCPU 0x80 0 0 0xFD 0x8002 0xA4) = 0 /\
  SP (mkCPU 0x80 0 0 0xFD 0x8002 0xA4) = 0xFD /\
  (status (mkCPU 0x80 0 0 0xFD 0x8002 0xA4) = 0x24 \/
   status (mkCPU 0x80 0 0 0xFD 0x8002 0xA4) = 0x26 \/
   status (mkCPU 0x80 0 0 0xFD 0x8002 0xA4) = 0xA4).
Proof.
  assert (Hreach : reachable (mkCPU 0x80 0 0 0xFD 0x8002 0xA4)).
  { apply (reachable_exec 0xA9 (set_PC 0x8001 (reset cpu_garbage)) mem_demo ""
             (mkCPU 0x80 0 0 0xFD 0x8002 0xA4) mem_demo "").
    - exact (reachable_fetch (reset cpu_garbage) (reachable_reset cpu_garbage)).
    - by_evaluation. }
  split; [exact Hreach |].
  exact (reachable_registers _ Hreach).
Defined.

(** ** Memory as an array *)

Section MemoryAlgebra.

Lemma Memory_eta m : mkMemory (ram m) = m.
Proof. now destruct m. Qed.

Lemma in_bounds_write m a v m' b :
  write m a v = Some m' -> in_bounds m' b = in_bounds m b.
Proof.
  unfold write. destruct (in_bounds m a); [| discriminate].
  intros [= <-]. unfold in_bounds. cbn [ram]. now rewrite length_insert.
Qed.

Lemma wrap16_shift_ne x d :
  0 < d < 0x10000 -> wrap16 (x + d) <> wrap16 x.
Proof.
  unfold wrap16. change (2 ^ 16) with 65536. intros Hd Heq.
  Z.div_mod_to_equations. lia.
Qed.

End MemoryAlgebra.

(** X4. Every cell of a freshly constructed memory reads 0. *)
Theorem fresh_memory_reads_zero a :
  is_u16 a -> read Memory_new a = Some 0.
Proof.
  intros Ha. destruct (read_ok Memory_new a Memory_new_ok Ha) as (b & Hb & _).
  rewrite Hb. f_equal. exact (read_Memory_new a b Hb).
Qed.

Lemma fresh_memory_reads_zero_witness : read Memory_new 0xFFFC = Some 0.
Proof. apply (fresh_memory_reads_zero 0xFFFC). unfold is_u16. lia. Defined.

(** X5. A second write to an address replaces the first: writing [v1] and
    then [v2] to [a] leaves the memory that writing [v2] alone leaves. *)
Theorem write_overwrites m a v1 v2 m1 :
  write m a v1 = Some m1 -> write m1 a v2 = write m a v2.
Proof.
  intros Hw. unfold write at 1. rewrite (in_bounds_write m a v1 m1 a Hw).
  unfold write in *. destruct (in_bounds m a); [| discriminate].
  injection Hw as <-. cbn [ram]. now rewrite list_insert_insert_eq.
Qed.

Lemma write_overwrites_witness :
  write (mkMemory (<[Z.to_nat 0x10 := 7]> (ram Memory_new))) 0x10 9 =
  write Memory_new 0x10 9.
Proof.
  apply (write_overwrites Memory_new 0x10 7 9).
  by_evaluation.
Defined.

(** X6. Writes to two different addresses can be done in either order: the
    memory left behind is the same, and so is whether an access was out of
    bounds. *)
Theorem writes_commute m a b v w :
  0 <= a -> 0 <= b -> a <> b ->
  (write m a v ≫= fun m1 => write m1 b w) =
  (write m b w ≫= fun m1 => write m1 a v).
Proof.
  intros Ha Hb Hne. unfold write.
  destruct (in_bounds m a) eqn:Hia, (in_bounds m b) eqn:Hib;
    cbn [mbind option_bind]; unfold in_bounds in *; cbn [ram];
    rewrite ?length_insert, ?Hia, ?Hib; try reflexivity.
  f_equal. f_equal. apply list_insert_insert_ne. lia.
Qed.

Lemma writes_commute_witness :
  (write Memory_new 0x0000 1 ≫= fun m1 => write m1 0x0800 2) =
  (write Memory_new 0x0800 2 ≫= fun m1 => write m1 0x0000 1).
Proof. apply (writes_commute Memory_new 0x0000 0x0800 1 2); lia. Defined.

(** X7. Writing to a cell the value it already holds leaves the memory as
    it is. *)
Theorem write_of_held_value_is_noop m a v :
  read m a = Some v -> write m a v = Some m.
Proof.
  unfold read, write. destruct (in_bounds m a); [| discriminate].
  intros Hv. now rewrite (list_insert_id _ _ _ Hv), Memory_eta.
Qed.

Lemma write_of_held_value_is_noop_witness :
  write mem_demo 0x8000 0xA9 = Some mem_demo.
Proof.
  apply (write_of_held_value_is_noop mem_demo 0x8000 0xA9).
  vm_compute. reflexivity.
Defined.

(** ** Loading a ROM image *)

Section LoadRom.

Lemma load_rom_from_untouched buffer : forall i m m' a,
  load_rom_from i buffer m = Some m' ->
  0 <= a ->
  (forall k, 0 <= k < Z.of_nat (length buffer) ->
             wrap16 (0x8000 + i + k) <> a) ->
  read m' a = read m a.
Proof.
  induction buffer as [| b rest IH]; intros i m m' a; cbn [load_rom_from].
  - now intros [= <-].
  - destruct (write m (wrap16 (0x8000 + i)) b) as [m1 |] eqn:Hw;
      [| discriminate].
    cbn [mbind option_bind]. intros Hload Ha Hfree.
    rewrite (IH (i + 1) m1 m' a Hload Ha).
    + apply (read_write_other m _ b m1 a Hw); [| exact Ha |].
      * pose proof (wrap16_range (0x8000 + i)) as Hr. unfold is_u16 in Hr. lia.
      * intros Heq. apply (Hfree 0); [cbn [length]; lia |].
        rewrite Z.add_0_r. now symmetry.
    + intros k Hk. replace (0x8000 + (i + 1) + k) with (0x8000 + i + (k + 1))
        by lia.
      apply Hfree. cbn [length]. lia.
Qed.

Lemma load_rom_from_stores buffer : forall i m m' k,
  load_rom_from i buffer m = Some m' ->
  (k < length buffer)%nat ->
  Z.of_nat (length buffer) <= Z.of_nat k + 0x10000 ->
  read m' (wrap16 (0x8000 + i + Z.of_nat k)) = buffer !! k.
Proof.
  induction buffer as [| b rest IH]; intros i m m' k; cbn [load_rom_from].
  - cbn [length]. lia.
  - destruct (write m (wrap16 (0x8000 + i)) b) as [m1 |] eqn:Hw;
      [| discriminate].
    cbn [mbind option_bind]. intros Hload Hk Hlen.
    destruct k as [| k'].
    + rewrite Z.add_0_r. cbn [lookup list_lookup].
      rewrite (load_rom_from_untouched rest (i + 1) m1 m' _ Hload).
      * exact (read_write_same m _ b m1 Hw).
      * pose proof (wrap16_range (0x8000 + i)) as Hr. unfold is_u16 in Hr. lia.
      * intros j Hj.
        replace (0x8000 + (i + 1) + j) with (0x8000 + i + (j + 1)) by lia.
        apply wrap16_shift_ne. cbn [length] in Hlen. lia.
    + cbn [lookup list_lookup].
      replace (0x8000 + i + Z.of_nat (S k')) with (0x8000 + (i + 1) + Z.of_nat k')
        by lia.
      apply (IH (i + 1) m1 m' k' Hload); cbn [length] in *; lia.
Qed.

End LoadRom.

(** X8. [load_rom] never writes out of bounds, however long the file, and
    every byte of the file is stored: on a 64KB memory the loop completes and
    leaves a 64KB memory of bytes in which byte [k] of the buffer is at
    address [(0x8000 + k) mod 0x10000] unless a later byte of the buffer
    landed there (the buffer has more than [k + 0x10000] bytes), and in which
    every cell no byte of the buffer lands on is as before. *)
Theorem load_rom_stays_in_bounds buffer m :
  mem_ok m -> Forall is_u8 buffer ->
  exists m',
    load_rom buffer m = Some m' /\ mem_ok m' /\
    (forall k, (k < length buffer)%nat ->
       Z.of_nat (length buffer) <= Z.of_nat k + 0x10000 ->
       read m' (wrap16 (0x8000 + Z.of_nat k)) = buffer !! k) /\
    (forall a, is_u16 a ->
       (forall k, (k < length buffer)%nat ->
          wrap16 (0x8000 + Z.of_nat k) <> a) ->
       read m' a = read m a).
Proof.
  intros Hm Hbuf.
  destruct (load_rom_from_ok buffer 0 m Hm Hbuf) as (m' & Hload & Hm').
  exists m'. split; [exact Hload |]. split; [exact Hm' |]. split.
  - intros k Hk Hlen.
    exact (load_rom_from_stores buffer 0 m m' k Hload Hk Hlen).
  - intros a Ha Hfree.
    apply (load_rom_from_untouched buffer 0 m m' a Hload).
    + unfold is_u16 in Ha. lia.
    + intros k Hk. rewrite Z.add_0_r.
      replace k with (Z.of_nat (Z.to_nat k)) by lia.
      apply Hfree. lia.
Qed.

(** A file of 0x12000 bytes, longer than the 0x8000 cells above 0x8000 and
    longer than the memory. *)
Lemma load_rom_stays_in_bounds_witness :
  exists m',
    load_rom (replicate (Z.to_nat 0x12000) 0xEA) Memory_new = Some m' /\
    mem_ok m' /\
    (forall k, (k < length (replicate (Z.to_nat 0x12000) 0xEA))%nat ->
       Z.of_nat (length (replicate (Z.to_nat 0x12000) 0xEA)) <=
         Z.of_nat k + 0x10000 ->
       read m' (wrap16 (0x8000 + Z.of_nat k)) =
         replicate (Z.to_nat 0x12000) 0xEA !! k) /\
    (forall a, is_u16 a ->
       (forall k, (k < length (replicate (Z.to_nat 0x12000) 0xEA))%nat ->
          wrap16 (0x8000 + Z.of_nat k) <> a) ->
       read m' a = read Memory_new a).
Proof.
  apply (load_rom_stays_in_bounds (replicate (Z.to_nat 0x12000) 0xEA) Memory_new).
  - exact Memory_new_ok.
  - apply Forall_replicate. unfold is_u8. lia.
Defined.

(** X9. After [load_rom], byte [k] of the file is read back at address
    [(0x8000 + k) mod 0x10000], provided no later byte of the file lands on
    the same address (the file has at most [k + 0x10000] bytes). For a file
    of more than 0x8000 bytes the addresses wrap: byte 0x8000 is at address
    0x0000. *)
Theorem load_rom_stores_each_byte buffer m k :
  mem_ok m -> Forall is_u8 buffer ->
  (k < length buffer)%nat ->
  Z.of_nat (length buffer) <= Z.of_nat k + 0x10000 ->
  exists m',
    load_rom buffer m = Some m' /\
    read m' (wrap16 (0x8000 + Z.of_nat k)) = buffer !! k.
Proof.
  intros Hm Hbuf Hk Hlen.
  destruct (load_rom_from_ok buffer 0 m Hm Hbuf) as (m' & Hload & _).
  exists m'. split; [exact Hload |].
  exact (load_rom_from_stores buffer 0 m m' k Hload Hk Hlen).
Qed.

(** Byte 0x8000 of a file of 0x8001 bytes. *)
Lemma load_rom_stores_each_byte_witness :
  exists m',
    load_rom (replicate (Z.to_nat 0x8000) 0xEA ++ [0x42]) Memory_new = Some m' /\
    read m' (wrap16 (0x8000 + Z.of_nat (Z.to_nat 0x8000))) =
      (replicate (Z.to_nat 0x8000) 0xEA ++ [0x42]) !! Z.to_nat 0x8000.
Proof.
  apply (load_rom_stores_each_byte
           (replicate (Z.to_nat 0x8000) 0xEA ++ [0x42]) Memory_new
           (Z.to_nat 0x8000)).
  - exact Memory_new_ok.
  - apply Forall_app. split.
    + apply Forall_replicate. unfold is_u8. lia.
    + repeat constructor; unfold is_u8; lia.
  - rewrite length_app, length_replicate. cbn [length]. lia.
  - rewrite length_app, length_replicate. cbn [length]. lia.
Defined.

(** X10. A file of at most 0x8000 bytes leaves every cell outside
    [0x8000, 0x8000 + length) as it was: nothing below 0x8000 is touched. *)
Theorem load_rom_leaves_the_rest buffer m a :
  mem_ok m -> Forall is_u8 buffer ->
  Z.of_nat (length buffer) <= 0x8000 ->
  is_u16 a ->
  a < 0x8000 \/ 0x8000 + Z.of_nat (length buffer) <= a ->
  exists m', load_rom buffer m = Some m' /\ read m' a = read m a.
Proof.
  intros Hm Hbuf Hlen Ha Hout.
  destruct (load_rom_from_ok buffer 0 m Hm Hbuf) as (m' & Hload & _).
  exists m'. split; [exact Hload |].
  apply (load_rom_from_untouched buffer 0 m m' a Hload).
  - unfold is_u16 in Ha. lia.
  - intros k Hk. unfold wrap16. change (2 ^ 16) with 65536.
    rewrite Z.mod_small by lia. lia.
Qed.

(** The zero page under the demonstration program. *)
Lemma load_rom_leaves_the_rest_witness :
  exists m',
    load_rom rom_demo Memory_new = Some m' /\
    read m' 0x00FF = read Memory_new 0x00FF.
Proof.
  apply (load_rom_leaves_the_rest rom_demo Memory_new 0x00FF).
  - exact Memory_new_ok.
  - unfold rom_demo, is_u8. repeat constructor; lia.
  - unfold rom_demo. cbn [length]. lia.
  - unfold is_u16. lia.
  - left. lia.
Defined.

(** X11. When the program enters its loop, [PC] points at the first byte of
    the file: [reset] sets [PC] to the address [load_rom] stores the file
    at. *)
Theorem startup_points_at_the_rom b rest c0 :
  Forall is_u8 (b :: rest) ->
  Z.of_nat (length (b :: rest)) <= 0x10000 ->
  exists e,
    startup (b :: rest) c0 = Some e /\
    read (memory e) (PC (cpu e)) = Some b.
Proof.
  intros Hbuf Hlen. unfold startup.
  destruct (load_rom_from_ok (b :: rest) 0 Memory_new Memory_new_ok Hbuf)
    as (m & Hload & _).
  unfold load_rom. rewrite Hload.
  cbn [mbind option_bind]. eexists. split; [reflexivity |].
  cbn [memory cpu PC reset].
  apply (load_rom_from_stores (b :: rest) 0 Memory_new m 0%nat Hload).
  - cbn [length]. lia.
  - lia.
Qed.

(** A three-byte file. *)
Lemma startup_points_at_the_rom_witness :
  exists e,
    startup (0xA9 :: [0x80; 0xAA]) cpu_garbage = Some e /\
    read (memory e) (PC (cpu e)) = Some 0xA9.
Proof.
  apply (startup_points_at_the_rom 0xA9 [0x80; 0xAA] cpu_garbage).
  - unfold is_u8. repeat constructor; lia.
  - cbn [length]. lia.
Defined.

(** ** Whole instructions *)

Section Steps.

Lemma wrap16_add_l x y : wrap16 (wrap16 x + y) = wrap16 (x + y).
Proof. unfold wrap16. now rewrite Zplus_mod_idemp_l. Qed.

Lemma wrap8_add_l x y : wrap8 (wrap8 x + y) = wrap8 (x + y).
Proof. unfold wrap8. now rewrite Zplus_mod_idemp_l. Qed.

Lemma wrap16_u16 x : is_u16 x -> wrap16 x = x.
Proof.
  unfold is_u16, wrap16. change (2 ^ 16) with 65536. intros Hx.
  apply Z.mod_small. lia.
Qed.

Lemma string_app_assoc (s1 s2 s3 : string) :
  (s1 ++ (s2 ++ s3))%string = ((s1 ++ s2) ++ s3)%string.
Proof.
  induction s1 as [| a s1 IH]; [reflexivity |].
  change (String a (s1 ++ (s2 ++ s3)) = String a ((s1 ++ s2) ++ s3))%string.
  now rewrite IH.
Qed.

Lemma string_app_empty_r (s : string) : (s ++ "")%string = s.
Proof.
  induction s as [| a s IH]; [reflexivity |].
  change (String a (s ++ "") = String a s)%string.
  now rewrite IH.
Qed.

(** The status after an update depends on the status before only, and an
    earlier update leaves no trace in it. *)
Lemma update_flags_status_absorb v1 v2 c1 c2 :
  status c1 = status c2 \/
  status c1 = status (update_zero_and_negative_flags v1 c2) ->
  status (update_zero_and_negative_flags v2 c1) =
  status (update_zero_and_negative_flags v2 c2).
Proof.
  intros Hs. apply Z.bits_inj'. intros n Hn.
  rewrite !update_flags_bits by assumption.
  destruct (n =? 1) eqn:E1; [reflexivity |].
  destruct (n =? 7) eqn:E7; [reflexivity |].
  destruct Hs as [-> | ->]; [reflexivity |].
  rewrite update_flags_bits, E1, E7 by assumption.
  now destruct (n <? 8).
Qed.

(** The registers an update leaves, written out. *)
Lemma update_flags_record v c1 c2 :
  status c1 = status c2 ->
  update_zero_and_negative_flags v c1 =
    mkCPU (A c1) (X c1) (Y c1) (SP c1) (PC c1)
      (status (update_zero_and_negative_flags v c2)).
Proof.
  intros Hs. rewrite (update_flags_shape v c1). unfold set_status. f_equal.
  apply (update_flags_status_absorb v v c1 c2). now left.
Qed.

Lemma lda_step e cerr v :
  read (memory e) (PC (cpu e)) = Some 0xA9 ->
  read (memory e) (wrap16 (PC (cpu e) + 1)) = Some v ->
  emulate_cycle e cerr =
    Some (RVoid,
          mkNes (mkCPU v (X (cpu e)) (Y (cpu e)) (SP (cpu e))
                   (wrap16 (PC (cpu e) + 2))
                   (status (update_zero_and_negative_flags v (cpu e))))
            (memory e) (running e),
          cerr).
Proof.
  intros Hop Hv.
  rewrite (emulate_cycle_eq e cerr 0xA9 _ (memory e) cerr Hop
             (execute_lda (set_PC (wrap16 (PC (cpu e) + 1)) (cpu e))
                (memory e) cerr v Hv)).
  rewrite (update_flags_record v _ (cpu e)) by reflexivity.
  cbn [A X Y SP PC set_A set_PC]. now rewrite wrap16_succ_succ.
Qed.

Lemma tax_step e cerr :
  read (memory e) (PC (cpu e)) = Some 0xAA ->
  emulate_cycle e cerr =
    Some (RVoid,
          mkNes (mkCPU (A (cpu e)) (A (cpu e)) (Y (cpu e)) (SP (cpu e))
                   (wrap16 (PC (cpu e) + 1))
                   (status (update_zero_and_negative_flags (A (cpu e)) (cpu e))))
            (memory e) (running e),
          cerr).
Proof.
  intros Hop.
  rewrite (emulate_cycle_eq e cerr 0xAA _ (memory e) cerr Hop
             (execute_tax _ (memory e) cerr)).
  now rewrite (update_flags_record _ _ (cpu e)) by reflexivity.
Qed.

Lemma inx_step e cerr :
  read (memory e) (PC (cpu e)) = Some 0xE8 ->
  emulate_cycle e cerr =
    Some (RVoid,
          mkNes (mkCPU (A (cpu e)) (wrap8 (X (cpu e) + 1)) (Y (cpu e))
                   (SP (cpu e)) (wrap16 (PC (cpu e) + 1))
                   (status (update_zero_and_negative_flags
                              (wrap8 (X (cpu e) + 1)) (cpu e))))
            (memory e) (running e),
          cerr).
Proof.
  intros Hop.
  rewrite (emulate_cycle_eq e cerr 0xE8 _ (memory e) cerr Hop
             (execute_inx _ (memory e) cerr)).
  now rewrite (update_flags_record _ _ (cpu e)) by reflexivity.
Qed.

Lemma unknown_step e cerr opcode :
  read (memory e) (PC (cpu e)) = Some opcode -> ~ implemented opcode ->
  emulate_cycle e cerr =
    Some (RVoid,
          mkNes (set_PC (wrap16 (PC (cpu e) + 1)) (cpu e)) (memory e) (running e),
          (cerr ++ unknown_opcode_line opcode)%string).
Proof.
  intros Hop Hun. unfold implemented in Hun.
  apply (emulate_cycle_eq e cerr opcode); [exact Hop |].
  apply execute_unknown; tauto.
Qed.

End Steps.

(** X12. LDA immediate as a whole instruction: with 0xA9 at [PC],
    [emulate_cycle] loads into [A] the byte at [PC + 1] and leaves [PC] at
    [PC + 2], both modulo 0x10000 (an opcode in the last cell takes its operand
    from address 0); the flags follow the byte loaded; [X], [Y], [SP], the
    memory, [running] and [std::cerr] are as before. *)
Theorem lda_immediate_loads_operand e cerr v :
  read (memory e) (PC (cpu e)) = Some 0xA9 ->
  read (memory e) (wrap16 (PC (cpu e) + 1)) = Some v ->
  exists c',
    emulate_cycle e cerr =
      Some (RVoid, mkNes c' (memory e) (running e), cerr) /\
    A c' = v /\ PC c' = wrap16 (PC (cpu e) + 2) /\
    X c' = X (cpu e) /\ Y c' = Y (cpu e) /\ SP c' = SP (cpu e) /\
    Z.testbit (status c') 1 = (v =? 0) /\
    Z.testbit (status c') 7 = Z.testbit v 7 /\
    same_flags_except_ZN (status (cpu e)) (status c').
Proof.
  intros Hop Hv. eexists. split; [exact (lda_step e cerr v Hop Hv) |].
  cbn [A X Y SP PC status]. repeat (split; [reflexivity |]).
  rewrite !update_flags_bits by lia. cbn [Z.eqb Pos.eqb].
  repeat (split; [reflexivity |]).
  intros i Hi N1 N7. rewrite update_flags_bits by lia.
  rewrite (proj2 (Z.eqb_neq _ _) N1), (proj2 (Z.eqb_neq _ _) N7).
  now rewrite (proj2 (Z.ltb_lt i 8)) by lia.
Qed.

(** The opcode in cell 0xFFFF, the operand in cell 0x0000. *)
Lemma lda_immediate_loads_operand_witness :
  exists c',
    emulate_cycle (mkNes (mkCPU 0 0 0 0xFD 0xFFFF 0x24) mem_wrap true) "" =
      Some (RVoid, mkNes c' mem_wrap true, "") /\
    A c' = 0x42 /\ PC c' = wrap16 (0xFFFF + 2) /\
    X c' = 0 /\ Y c' = 0 /\ SP c' = 0xFD /\
    Z.testbit (status c') 1 = (0x42 =? 0) /\
    Z.testbit (status c') 7 = Z.testbit 0x42 7 /\
    same_flags_except_ZN 0x24 (status c').
Proof.
  apply (lda_immediate_loads_operand
           (mkNes (mkCPU 0 0 0 0xFD 0xFFFF 0x24) mem_wrap true) "" 0x42).
  - vm_compute. reflexivity.
  - vm_compute. reflexivity.
Defined.

(** X13. The three implemented instructions in a row: with
    [LDA #v; TAX; INX] at [PC], three calls of [emulate_cycle] leave [A = v],
    [X = (v + 1) mod 256], [PC] four bytes on, and the flags as one update for
    the final [X] leaves them; [Y], [SP], the memory, [running] and
    [std::cerr] are as before. *)
Theorem lda_tax_inx_program e cerr v :
  read (memory e) (PC (cpu e)) = Some 0xA9 ->
  read (memory e) (wrap16 (PC (cpu e) + 1)) = Some v ->
  read (memory e) (wrap16 (PC (cpu e) + 2)) = Some 0xAA ->
  read (memory e) (wrap16 (PC (cpu e) + 3)) = Some 0xE8 ->
  cycles 3 e cerr =
    Some (mkNes (mkCPU v (wrap8 (v + 1)) (Y (cpu e)) (SP (cpu e))
                   (wrap16 (PC (cpu e) + 4))
                   (status (update_zero_and_negative_flags (wrap8 (v + 1))
                              (cpu e))))
            (memory e) (running e),
          cerr).
Proof.
  intros H0 H1 H2 H3. cbn [cycles].
  rewrite (lda_step e cerr v H0 H1). cbn [mbind option_bind].
  rewrite tax_step by exact H2. cbn [mbind option_bind cpu memory running A X Y SP PC].
  rewrite inx_step.
  - cbn [mbind option_bind cpu memory running A X Y SP PC].
    assert (HPC : wrap16 (wrap16 (wrap16 (PC (cpu e) + 2) + 1) + 1) =
                  wrap16 (PC (cpu e) + 4)).
    { rewrite wrap16_add_l, <- Z.add_assoc, wrap16_add_l. f_equal. lia. }
    rewrite HPC. do 4 f_equal.
    apply (update_flags_status_absorb v (wrap8 (v + 1))). right. cbn [status].
    apply (update_flags_status_absorb v v). right. reflexivity.
  - cbn [cpu memory PC]. rewrite wrap16_add_l.
    replace (PC (cpu e) + 2 + 1) with (PC (cpu e) + 3) by lia. exact H3.
Qed.

(** The demonstration program, right after [reset]. *)
Lemma lda_tax_inx_program_witness :
  cycles 3 (mkNes (reset cpu_garbage) mem_demo true) "" =
    Some (mkNes (mkCPU 0x80 (wrap8 (0x80 + 1)) 0 0xFD (wrap16 (0x8000 + 4))
                   (status (update_zero_and_negative_flags (wrap8 (0x80 + 1))
                              (reset cpu_garbage))))
            mem_demo true,
          "").
Proof.
  apply (lda_tax_inx_program (mkNes (reset cpu_garbage) mem_demo true) "" 0x80);
    vm_compute; reflexivity.
Defined.

(** ** Runs of one kind of instruction *)

(** X14. INX repeated: over [n >= 1] cells holding 0xE8, [n] calls of
    [emulate_cycle] add [n] to [X] modulo 256 (so 256 of them give [X] back)
    and [n] to [PC] modulo 0x10000; the flags are those of one update for the
    final [X]; everything else is as before. *)
Theorem inx_run n : forall e cerr,
  is_u16 (PC (cpu e)) ->
  (forall k, (k <= n)%nat ->
     read (memory e) (wrap16 (PC (cpu e) + Z.of_nat k)) = Some 0xE8) ->
  cycles (S n) e cerr =
    Some (mkNes (mkCPU (A (cpu e)) (wrap8 (X (cpu e) + Z.of_nat (S n)))
                   (Y (cpu e)) (SP (cpu e))
                   (wrap16 (PC (cpu e) + Z.of_nat (S n)))
                   (status (update_zero_and_negative_flags
                              (wrap8 (X (cpu e) + Z.of_nat (S n))) (cpu e))))
            (memory e) (running e),
          cerr).
Proof.
  induction n as [| n IH]; intros e cerr Hpc Hmem.
  - cbn [cycles]. rewrite inx_step.
    + reflexivity.
    + rewrite <- (Hmem 0%nat) by lia. f_equal.
      rewrite Z.add_0_r. symmetry. now apply wrap16_u16.
  - change (cycles (S (S n)) e cerr)
      with (emulate_cycle e cerr ≫= fun '(_, e1, cerr1) => cycles (S n) e1 cerr1).
    rewrite inx_step.
    + cbn [mbind option_bind]. rewrite IH.
      * cbn [cpu memory running A X Y SP PC].
        rewrite wrap8_add_l, wrap16_add_l.
        replace (X (cpu e) + 1 + Z.of_nat (S n))
          with (X (cpu e) + Z.of_nat (S (S n))) by lia.
        replace (PC (cpu e) + 1 + Z.of_nat (S n))
          with (PC (cpu e) + Z.of_nat (S (S n))) by lia.
        do 4 f_equal.
        apply (update_flags_status_absorb (wrap8 (X (cpu e) + 1))). now right.
      * cbn [cpu PC]. apply wrap16_range.
      * intros k Hk. cbn [cpu memory PC]. rewrite wrap16_add_l.
        replace (PC (cpu e) + 1 + Z.of_nat k)
          with (PC (cpu e) + Z.of_nat (S k)) by lia.
        apply Hmem. lia.
    + rewrite <- (Hmem 0%nat) by lia. f_equal.
      rewrite Z.add_0_r. symmetry. now apply wrap16_u16.
Qed.

(** The single INX of the demonstration program, reached with [X = 0xFF]. *)
Lemma inx_run_witness :
  cycles 1 (mkNes (mkCPU 0 0xFF 0 0xFD 0x8003 0x24) mem_demo true) "" =
    Some (mkNes (mkCPU 0 (wrap8 (0xFF + Z.of_nat 1)) 0 0xFD
                   (wrap16 (0x8003 + Z.of_nat 1))
                   (status (update_zero_and_negative_flags
                              (wrap8 (0xFF + Z.of_nat 1))
                              (mkCPU 0 0xFF 0 0xFD 0x8003 0x24))))
            mem_demo true,
          "").
Proof.
  apply (inx_run 0 (mkNes (mkCPU 0 0xFF 0 0xFD 0x8003 0x24) mem_demo true) "").
  - unfold is_u16. cbn [cpu PC]. lia.
  - intros k Hk. assert (k = 0%nat) as -> by lia. vm_compute. reflexivity.
Defined.

(** X15. A stretch of opcodes outside the implemented set, as in an emulator
    whose ROM file did not open: [n] calls of [emulate_cycle] over it advance
    [PC] by [n] modulo 0x10000, running from the last cell on into cell 0,
    send one "Unknown opcode" line per byte to [std::cerr], in order, and
    change nothing else. *)
Theorem unknown_run n : forall e cerr,
  is_u16 (PC (cpu e)) ->
  (forall k, (k < n)%nat ->
     exists opcode,
       read (memory e) (wrap16 (PC (cpu e) + Z.of_nat k)) = Some opcode /\
       ~ implemented opcode) ->
  cycles n e cerr =
    Some (mkNes (set_PC (wrap16 (PC (cpu e) + Z.of_nat n)) (cpu e))
            (memory e) (running e),
          (cerr ++ unknown_lines (memory e) (PC (cpu e)) n)%string).
Proof.
  induction n as [| n IH]; intros e cerr Hpc Hmem.
  - cbn [cycles unknown_lines]. rewrite string_app_empty_r.
    rewrite Z.add_0_r, (wrap16_u16 _ Hpc).
    destruct e as [[a x y s p st] m r]. reflexivity.
  - destruct (Hmem 0%nat) as (opcode & Hop & Hun); [lia |].
    rewrite Z.add_0_r, (wrap16_u16 _ Hpc) in Hop.
    cbn [cycles unknown_lines]. rewrite Hop.
    rewrite (unknown_step e cerr opcode Hop Hun). cbn [mbind option_bind].
    rewrite IH.
    + cbn [cpu memory running PC set_PC]. rewrite wrap16_add_l.
      replace (PC (cpu e) + 1 + Z.of_nat n)
        with (PC (cpu e) + Z.of_nat (S n)) by lia.
      now rewrite string_app_assoc.
    + cbn [cpu PC set_PC]. apply wrap16_range.
    + intros k Hk. cbn [cpu memory PC set_PC]. rewrite wrap16_add_l.
      replace (PC (cpu e) + 1 + Z.of_nat k)
        with (PC (cpu e) + Z.of_nat (S k)) by lia.
      apply Hmem. lia.
Qed.

(** Two instructions on the zeroed memory, from the last cell into cell 0. *)
Lemma unknown_run_witness :
  cycles 2 (mkNes (mkCPU 0 0 0 0xFD 0xFFFF 0x24) Memory_new true) "" =
    Some (mkNes (set_PC (wrap16 (0xFFFF + Z.of_nat 2))
                   (mkCPU 0 0 0 0xFD 0xFFFF 0x24))
            Memory_new true,
          ("" ++ unknown_lines Memory_new 0xFFFF 2)%string).
Proof.
  apply (unknown_run 2 (mkNes (mkCPU 0 0 0 0xFD 0xFFFF 0x24) Memory_new true) "").
  - unfold is_u16. cbn [cpu PC]. lia.
  - intros k Hk. exists 0. split.
    + cbn [cpu memory PC].
      destruct (read_ok Memory_new _ Memory_new_ok
                  (wrap16_range (0xFFFF + Z.of_nat k))) as (b & Hb & _).
      rewrite Hb. f_equal. exact (read_Memory_new _ _ Hb).
    + unfold implemented. lia.
Defined.

(** ** Diagnostics *)

Section Diagnostics.

Lemma emulate_cycle_output e cerr r e' cerr' :
  emulate_cycle e cerr = Some (r, e', cerr') ->
  exists out,
    cerr' = (cerr ++ out)%string /\
    forall cerr2, emulate_cycle e cerr2 = Some (r, e', (cerr2 ++ out)%string).
Proof.
  intros Hcyc.
  apply emulate_cycle_inv in Hcyc as (opcode & c' & m' & Hop & Hex & -> & ->).
  apply execute_cases in Hex as [-> Hcases].
  destruct Hcases as [(v & -> & Hv & -> & ->) | [(-> & -> & ->) |
    [(-> & -> & ->) | (N1 & N2 & N3 & -> & ->)]]].
  - exists "". rewrite string_app_empty_r. split; [reflexivity |].
    intros cerr2. rewrite string_app_empty_r.
    apply (emulate_cycle_eq e cerr2 0xA9); [exact Hop |].
    now apply execute_lda.
  - exists "". rewrite string_app_empty_r. split; [reflexivity |].
    intros cerr2. rewrite string_app_empty_r.
    apply (emulate_cycle_eq e cerr2 0xAA); [exact Hop |]. apply execute_tax.
  - exists "". rewrite string_app_empty_r. split; [reflexivity |].
    intros cerr2. rewrite string_app_empty_r.
    apply (emulate_cycle_eq e cerr2 0xE8); [exact Hop |]. apply execute_inx.
  - exists (unknown_opcode_line opcode). split; [reflexivity |].
    intros cerr2.
    apply (emulate_cycle_eq e cerr2 opcode); [exact Hop |].
    now apply execute_unknown.
Qed.

End Diagnostics.

(** X16. What is written to [std::cerr] never feeds back into the
    emulation, and nothing written is ever taken back: a run of [n]
    instructions only appends to [std::cerr], and started with any other
    [std::cerr] contents it ends in the same emulator state having appended
    the same text. *)
Theorem diagnostics_are_append_only n : forall e cerr e' cerr',
  cycles n e cerr = Some (e', cerr') ->
  exists out,
    cerr' = (cerr ++ out)%string /\
    forall cerr2, cycles n e cerr2 = Some (e', (cerr2 ++ out)%string).
Proof.
  induction n as [| n IH]; intros e cerr e' cerr'; cbn [cycles].
  - intros [= <- <-]. exists "". rewrite string_app_empty_r.
    split; [reflexivity |]. intros cerr2. now rewrite string_app_empty_r.
  - destruct (emulate_cycle e cerr) as [[[r e1] cerr1] |] eqn:Hcyc;
      [| discriminate].
    cbn [mbind option_bind]. intros Hrest.
    destruct (emulate_cycle_output e cerr r e1 cerr1 Hcyc) as (out1 & -> & H1).
    destruct (IH e1 _ e' cerr' Hrest) as (out2 & -> & H2).
    exists (out1 ++ out2)%string. split; [now rewrite string_app_assoc |].
    intros cerr2. rewrite H1. cbn [mbind option_bind].
    rewrite H2. now rewrite string_app_assoc.
Qed.

(** One instruction on the zeroed memory, right after [reset]. *)
Lemma diagnostics_are_append_only_witness :
  exists out,
    ("" ++ unknown_opcode_line 0x00)%string = ("" ++ out)%string /\
    forall cerr2,
      cycles 1 (mkNes (reset cpu_garbage) Memory_new true) cerr2 =
        Some (mkNes (mkCPU 0 0 0 0xFD 0x8001 0x24) Memory_new true,
              (cerr2 ++ out)%string).
Proof.
  apply (diagnostics_are_append_only 1
           (mkNes (reset cpu_garbage) Memory_new true) ""
           (mkNes (mkCPU 0 0 0 0xFD 0x8001 0x24) Memory_new true)
           ("" ++ unknown_opcode_line 0x00)%string).
  by_evaluation.
Defined.

(** ** The event loop *)

Section EventLoopFacts.

Variable SDL_QUIT : Z.

Lemma handle_input_stopped events : forall e,
  running e = false -> handle_input SDL_QUIT events e = e.
Proof.
  induction events as [| ev rest IH]; intros e Hr; cbn [handle_input].
  - reflexivity.
  - destruct (ev =? SDL_QUIT).
    + rewrite IH by reflexivity. unfold set_running. rewrite <- Hr.
      now destruct e.
    + now apply IH.
Qed.

Lemma handle_input_spec events : forall e,
  handle_input SDL_QUIT events e =
    set_running (running e && forallb (fun ev => negb (ev =? SDL_QUIT)) events) e.
Proof.
  induction events as [| ev rest IH]; intros e; cbn [handle_input forallb].
  - rewrite andb_true_r. unfold set_running. now destruct e.
  - rewrite IH. destruct (ev =? SDL_QUIT); cbn [negb andb].
    + unfold set_running. cbn [running cpu memory].
      now rewrite andb_false_r.
    + reflexivity.
Qed.

(** [emulate_cycle] neither reads nor writes [running]. *)
Lemma emulate_cycle_set_running b e cerr :
  emulate_cycle (set_running b e) cerr =
    emulate_cycle e cerr ≫= fun '(r, e', cerr') =>
      Some (r, set_running b e', cerr').
Proof.
  unfold emulate_cycle, set_running. cbn [cpu memory running].
  destruct (read (memory e) (PC (cpu e))) as [opcode |];
    cbn [mbind option_bind]; [| reflexivity].
  destruct (execute_opcode opcode _ (memory e) cerr) as [[[c' m'] cerr'] |];
    cbn [mbind option_bind]; reflexivity.
Qed.

Lemma emulate_cycle_running e cerr r e' cerr' :
  emulate_cycle e cerr = Some (r, e', cerr') -> running e' = running e.
Proof.
  intros Hcyc.
  now apply emulate_cycle_inv in Hcyc as (opcode & c' & m' & _ & _ & _ & ->).
Qed.

Lemma run_stopped frames e cerr :
  running e = false -> run SDL_QUIT frames e cerr = Some (e, cerr).
Proof. intros Hr. destruct frames; cbn [run]; now rewrite ?Hr. Qed.

Lemma no_quit_forallb events :
  Forall (fun ev => ev <> SDL_QUIT) events ->
  forallb (fun ev => negb (ev =? SDL_QUIT)) events = true.
Proof.
  induction 1 as [| ev rest Hev _ IH]; cbn [forallb]; [reflexivity |].
  now rewrite (proj2 (Z.eqb_neq _ _) Hev), IH.
Qed.

Lemma quit_forallb events :
  In SDL_QUIT events ->
  forallb (fun ev => negb (ev =? SDL_QUIT)) events = false.
Proof.
  induction events as [| ev rest IH]; cbn [In forallb]; [tauto |].
  intros [-> | Hin].
  - now rewrite Z.eqb_refl.
  - rewrite (IH Hin). apply andb_false_r.
Qed.

Lemma set_running_same e : set_running (running e) e = e.
Proof. now destruct e. Qed.

End EventLoopFacts.

(** X17. [handle_input] can only stop the emulator: it leaves the CPU and
    the memory alone, and [running] holds after it exactly when it held
    before and none of the pending events is [SDL_QUIT]. *)
Theorem handle_input_only_stops SDL_QUIT events e :
  cpu (handle_input SDL_QUIT events e) = cpu e /\
  memory (handle_input SDL_QUIT events e) = memory e /\
  running (handle_input SDL_QUIT events e) =
    running e && forallb (fun ev => negb (ev =? SDL_QUIT)) events.
Proof. rewrite handle_input_spec. repeat split. Qed.

(** X18. As long as no [SDL_QUIT] arrives, the loop of [run] executes one
    instruction per turn: over [frames] without [SDL_QUIT] it does what that
    many calls of [emulate_cycle] do. *)
Theorem run_without_quit SDL_QUIT frames : forall e cerr,
  running e = true ->
  Forall (Forall (fun ev => ev <> SDL_QUIT)) frames ->
  run SDL_QUIT frames e cerr = cycles (length frames) e cerr.
Proof.
  induction frames as [| events rest IH]; intros e cerr Hr Hq;
    cbn [run cycles length].
  - reflexivity.
  - inversion Hq as [| ? ? Hev Hrest]; subst.
    rewrite Hr, handle_input_spec, Hr, (no_quit_forallb _ _ Hev).
    cbn [andb]. rewrite <- Hr, set_running_same.
    destruct (emulate_cycle e cerr) as [[[r e1] cerr1] |] eqn:Hcyc;
      cbn [mbind option_bind]; [| reflexivity].
    apply IH; [| exact Hrest].
    rewrite (emulate_cycle_running _ _ _ _ _ Hcyc). now rewrite Hr.
Qed.

(** Three turns over the demonstration program; 0x100 stands for
    [SDL_QUIT], 0x300 and 0x400 for other events. *)
Lemma run_without_quit_witness :
  run 0x100 [[]; [0x300; 0x400]; []] (mkNes (reset cpu_garbage) mem_demo true) "" =
  cycles (length [[]; [0x300; 0x400]; []])
    (mkNes (reset cpu_garbage) mem_demo true) "".
Proof.
  apply (run_without_quit 0x100 [[]; [0x300; 0x400]; []]
           (mkNes (reset cpu_garbage) mem_demo true) "").
  - reflexivity.
  - repeat constructor; lia.
Defined.

(** X19. When [SDL_QUIT] arrives, the turn it arrives in still executes its
    instruction, and then the loop ends: after [length pre] turns without
    [SDL_QUIT] and one with it, [run] has done [length pre + 1] calls of
    [emulate_cycle], [running] is false, and whatever events come later
    change nothing. *)
Theorem run_stops_after_quit SDL_QUIT pre quit post : forall e cerr,
  running e = true ->
  Forall (Forall (fun ev => ev <> SDL_QUIT)) pre ->
  In SDL_QUIT quit ->
  run SDL_QUIT (pre ++ quit :: post) e cerr =
    cycles (S (length pre)) e cerr ≫= fun '(e', cerr') =>
      Some (set_running false e', cerr').
Proof.
  induction pre as [| events rest IH]; intros e cerr Hr Hq Hin.
  - cbn [app run cycles length]. rewrite Hr, handle_input_spec, Hr.
    rewrite (quit_forallb _ _ Hin). cbn [andb].
    rewrite emulate_cycle_set_running.
    destruct (emulate_cycle e cerr) as [[[r e1] cerr1] |];
      cbn [mbind option_bind]; [| reflexivity].
    now apply run_stopped.
  - inversion Hq as [| ? ? Hev Hrest]; subst.
    change (run SDL_QUIT ((events :: rest) ++ quit :: post) e cerr)
      with (run SDL_QUIT (events :: (rest ++ quit :: post)) e cerr).
    cbn [run length].
    change (cycles (S (S (length rest))) e cerr)
      with (emulate_cycle e cerr ≫= fun '(_, e1, cerr1) =>
              cycles (S (length rest)) e1 cerr1).
    rewrite Hr, handle_input_spec, Hr, (no_quit_forallb _ _ Hev).
    cbn [andb]. rewrite <- Hr, set_running_same.
    destruct (emulate_cycle e cerr) as [[[r e1] cerr1] |] eqn:Hcyc;
      cbn [mbind option_bind]; [| reflexivity].
    apply IH; [| exact Hrest | exact Hin].
    rewrite (emulate_cycle_running _ _ _ _ _ Hcyc). now rewrite Hr.
Qed.

(** [SDL_QUIT] (0x100) in the second turn of four. *)
Lemma run_stops_after_quit_witness :
  run 0x100 ([[0x300]] ++ [0x400; 0x100] :: [[]; []])
    (mkNes (reset cpu_garbage) mem_demo true) "" =
  cycles (S (length [[0x300]])) (mkNes (reset cpu_garbage) mem_demo true) ""
    ≫= fun '(e', cerr') => Some (set_running false e', cerr').
Proof.
  apply (run_stops_after_quit 0x100 [[0x300]] [0x400; 0x100] [[]; []]
           (mkNes (reset cpu_garbage) mem_demo true) "").
  - reflexivity.
  - repeat constructor; lia.
  - cbn [In]. tauto.
Defined.

(** ** What a run leaves alone *)

(** X20. Any number of [emulate_cycle] calls on a 64KB memory runs to
    completion and never writes: [SP], every cell of memory, status bit 2
    (interrupt-disable) and [running] are after the run what they were before
    it, whatever the registers and the opcodes met. *)
Theorem cycles_leave_stack_and_memory n : forall e cerr,
  mem_ok (memory e) -> is_u16 (PC (cpu e)) ->
  exists e' cerr',
    cycles n e cerr = Some (e', cerr') /\
    SP (cpu e') = SP (cpu e) /\
    memory e' = memory e /\
    Z.testbit (status (cpu e')) 2 = Z.testbit (status (cpu e)) 2 /\
    running e' = running e.
Proof.
  induction n as [| n IH]; intros e cerr Hm Hpc.
  - exists e, cerr. repeat split.
  - destruct (emulate_cycle_frame e cerr Hm Hpc)
      as (e1 & cerr1 & Hcyc & Hmem & Hrun & HSP & Hpc1 & HI).
    destruct (IH e1 cerr1) as (e' & cerr' & Hrest & HSP' & Hmem' & HI' & Hrun').
    + now rewrite Hmem.
    + exact Hpc1.
    + exists e', cerr'. cbn [cycles]. rewrite Hcyc. cbn [mbind option_bind].
      split; [exact Hrest |]. repeat split; congruence.
Qed.

(** Three instructions of the demonstration program, started with status
    0x20. *)
Lemma cycles_leave_stack_and_memory_witness :
  exists e' cerr',
    cycles 3 (mkNes (mkCPU 0 0 0 0xFD 0x8000 0x20) mem_demo true) "" =
      Some (e', cerr') /\
    SP (cpu e') = 0xFD /\
    memory e' = mem_demo /\
    Z.testbit (status (cpu e')) 2 = Z.testbit 0x20 2 /\
    running e' = true.
Proof.
  apply (cycles_leave_stack_and_memory 3
           (mkNes (mkCPU 0 0 0 0xFD 0x8000 0x20) mem_demo true) "").
  - exact mem_demo_ok.
  - unfold is_u16. cbn [PC cpu]. lia.
Defined.
